(** * GastroTartarus front-end: the decision logic of the route components

    The repository is a React/TypeScript front-end.  Its components are
    embedded as the pure functions they are: a component maps its props,
    the validated URL search parameters and the result of its query hook
    to a tree of elements; event handlers map the previous URL search
    object to the next one; the callbacks of a mutation are transformers of
    the state they act on, run by the query library when a request settles.

    Numbers.  JavaScript numbers are IEEE-754 binary64 values, which is
    what Rocq's primitive [float] is, so scores, thresholds, page numbers
    and counts are [float]s and their arithmetic is the hardware one.
    Durations in minutes and timestamps in milliseconds are integers that
    are converted to text or divided with [Math.floor]/[Math.ceil]; they
    are embedded as [Z], which agrees with the double arithmetic of the
    source on every integer below 2^53; statements about the digits of a
    number or about a quotient carry that bound, and the module
    [Binary64] holds the lines of [formatTime] on numbers of any size. *)

From Stdlib Require Import ZArith String Ascii List Floats Lia.
From Stdlib Require Import DecimalString DecimalPos DecimalZ.
From stdpp Require Import base gmap strings list.

Set Warnings "-inexact-float,-register-all".
Local Open Scope string_scope.
Local Open Scope Z_scope.

(** ** JavaScript built-ins used by the components *)

Module Js.

(** [Number.prototype.toString] on a safe integer (one below 2^53 in
    absolute value), as performed by a template literal [`${n}`]: all the
    decimal digits, with a leading minus sign.  Beyond the safe integers a
    number is printed with its shortest digits, and in exponent notation
    from 10^21: that function is [Binary64.Number_toString] below. *)
Definition toString (n : Z) : string := NilZero.string_of_int (Z.to_int n).

(** A value of type [number | null | undefined] holding an integer. *)
Inductive OptInt : Type :=
| IUndefined
| INull
| INum (n : Z).

(** [ToBoolean]: [undefined], [null] and [0] are the falsy values. *)
Definition truthy (v : OptInt) : bool :=
  match v with
  | IUndefined | INull => false
  | INum n => negb (n =? 0)
  end.

(** [Number.isSafeInteger] on an integer: the integers on which the
    arithmetic of numbers is the arithmetic of integers. *)
Definition isSafeInteger (n : Z) : bool := Z.abs n <? 2 ^ 53.

(** A value that is absent or a safe integer. *)
Definition safe (v : OptInt) : Prop :=
  match v with
  | INum n => isSafeInteger n = true
  | _ => True
  end.

(** Values found in a parsed URL search object (JSON values). *)
Inductive Val : Type :=
| VNull
| VBool (b : bool)
| VNum (x : float)
| VStr (s : string)
| VArr (items : list Val).

(** [Math.round]: the integral number closest to [x], ties towards
    +infinity; NaN, the infinities, zeros and integral values are
    returned unchanged.  Below 2^52 the integer part is obtained
    exactly by adding and subtracting 2^52. *)
Definition two52 : float := 4503599627370496%float.

Definition floor_abs (a : float) : float :=
  let r := ((a + two52) - two52)%float in
  if (a <? r)%float then (r - 1)%float else r.

Definition Math_round (x : float) : float :=
  if PrimFloat.is_nan x || PrimFloat.is_infinity x || PrimFloat.is_zero x then x
  else
    let a := PrimFloat.abs x in
    if (two52 <=? a)%float then x
    else
      let f := floor_abs a in
      let frac := (a - f)%float in
      if (0 <? x)%float
      then if (0.5 <=? frac)%float then (f + 1)%float else f
      else if (0.5 <? frac)%float then (- (f + 1))%float else (- f)%float.

(** [ToIntegerOrInfinity] of a finite number: truncation towards zero. *)
Definition truncate (x : float) : Z :=
  match Prim2SF x with
  | S754_finite s m e =>
      let v := if 0 <=? e then Z.pos m * 2 ^ e else Z.pos m / 2 ^ (- e) in
      if s then - v else v
  | _ => 0
  end.

(** [Array.prototype.slice(0, end)]: a negative [end] counts from the
    end of the array, NaN counts as 0. *)
Definition slice0 {A} (l : list A) (end_ : float) : list A :=
  match Prim2SF end_ with
  | S754_infinity false => l
  | S754_finite false _ _ => take (Z.to_nat (truncate end_)) l
  | S754_finite true _ _ => take (length l - Z.to_nat (- truncate end_)) l
  | _ => []
  end.

(** The last character of a text, if any. *)
Fixpoint last_char (s : string) : option ascii :=
  match s with
  | EmptyString => None
  | String c EmptyString => Some c
  | String _ t => last_char t
  end.

(** [Math.ceil (a / d)] for integers [a] and [d > 0]. *)
Definition ceil_div (a d : Z) : Z := - ((- a) / d).

End Js.

(** ** The schema library (zod) as used by the routes

    A field schema maps the value found under a key ([None] when the key is
    missing) to a parse result; [catch] replaces a failed parse by a
    default.  [z.number()] accepts numbers other than NaN; [min] and [max]
    are inclusive bounds, failing when the value is below (above) the
    bound. *)

Module Zod.
Import Js.

Definition number (v : option Val) : option float :=
  match v with
  | Some (VNum x) => if PrimFloat.is_nan x then None else Some x
  | _ => None
  end.

Definition string (v : option Val) : option String.string :=
  match v with
  | Some (VStr s) => Some s
  | _ => None
  end.

Definition boolean (v : option Val) : option bool :=
  match v with
  | Some (VBool b) => Some b
  | _ => None
  end.

Definition min (bound : float) (r : option float) : option float :=
  match r with
  | Some x => if (x <? bound)%float then None else Some x
  | None => None
  end.

Definition max (bound : float) (r : option float) : option float :=
  match r with
  | Some x => if (bound <? x)%float then None else Some x
  | None => None
  end.

Definition catch {A} (d : A) (r : option A) : A :=
  match r with
  | Some x => x
  | None => d
  end.

End Zod.

(** ** Rendered elements

    Only what the properties below talk about is kept of an element: its
    key, its colour palette and its children.  A child is a piece of text or
    the value of an embedded expression; React prints numbers and prints
    nothing for [null] and [undefined] ([CUndefined]). *)

Module Jsx.

Inductive Child : Type :=
| CText (s : string)
| CNum (x : float)
| CInt (n : Z)
| CUndefined.

Record Badge : Type := mkBadge {
  badge_key : option string;
  colorPalette : string;
  badge_children : list Child
}.

Record Progress : Type := mkProgress {
  progress_value : float;
  progress_colorPalette : string
}.

(** A string, or [null] or [undefined], as a child. *)
Definition child (s : option string) : Child :=
  match s with
  | Some t => CText t
  | None => CUndefined
  end.

(** [v && e] in an element position: a falsy [v] is rendered itself
    (nothing for [undefined] and [null], the digit for [0]). *)
Definition and_then (v : Js.OptInt) (e : list Child) : list Child :=
  match v with
  | Js.IUndefined | Js.INull => []
  | Js.INum n => if n =? 0 then [CInt 0] else e
  end.

End Jsx.

(** ** The query library (react-query) as used by the components *)

Module ReactQuery.

(** A query key is an array whose parts are strings or parameter
    objects, e.g. [["ingredients", { page, search }]]. *)
Inductive KeyPart : Type :=
| KStr (s : string)
| KObj (fields : list (string * Js.Val)).

Definition QueryKey : Type := list KeyPart.

(** A cached query: its key, and whether it is marked stale. *)
Record Query : Type := mkQuery {
  queryKey : QueryKey;
  isInvalidated : bool
}.

(** [invalidateQueries({ queryKey })] matches every query whose key
    starts with the given one.  All keys passed in this repository are
    arrays of strings. *)
Fixpoint partialMatchKey (key : QueryKey) (filter : list string) : bool :=
  match filter, key with
  | [], _ => true
  | f :: fs, KStr s :: ks => String.eqb f s && partialMatchKey ks fs
  | _ :: _, _ => false
  end.

Definition invalidate (filter : list string) (q : Query) : Query :=
  if partialMatchKey (queryKey q) filter
  then mkQuery (queryKey q) true
  else q.

(** What [useQuery] hands to a component. *)
Record UseQueryResult (T : Type) : Type := mkResult {
  data : option T;
  isLoading : bool;
  isPlaceholderData : bool
}.
Arguments mkResult {T}.
Arguments data {T}.
Arguments isLoading {T}.
Arguments isPlaceholderData {T}.

(** The error type of the generated client. *)
Record ApiError : Type := mkApiError {
  status : Z;
  message : string
}.

(** The part of the application a mutation callback can act on: the
    open flag of the dialog on screen ([useState]), the success toasts
    shown, the errors passed to [handleError], the number of form resets,
    and the shared query cache. *)
Record App : Type := mkApp {
  isOpen : bool;
  toasts : list string;
  handledErrors : list ApiError;
  resets : nat;
  cache : list Query
}.

Definition showSuccessToast (msg : string) (a : App) : App :=
  mkApp (isOpen a) (toasts a ++ [msg])%list (handledErrors a) (resets a) (cache a).

Definition reset (a : App) : App :=
  mkApp (isOpen a) (toasts a) (handledErrors a) (S (resets a)) (cache a).

Definition setIsOpen (b : bool) (a : App) : App :=
  mkApp b (toasts a) (handledErrors a) (resets a) (cache a).

Definition handleError (err : ApiError) (a : App) : App :=
  mkApp (isOpen a) (toasts a) (handledErrors a ++ [err])%list (resets a) (cache a).

Definition invalidateQueries (filter : list string) (a : App) : App :=
  mkApp (isOpen a) (toasts a) (handledErrors a) (resets a)
        (map (invalidate filter) (cache a)).

Record MutationOptions : Type := mkMutation {
  onSuccess : App -> App;
  onError : ApiError -> App -> App;
  onSettled : App -> App
}.

Inductive Outcome : Type :=
| Fulfilled
| Rejected (err : ApiError).

(** When the request of a mutation settles the library runs [onSuccess]
    or [onError], and then [onSettled] in both cases. *)
Definition settle (m : MutationOptions) (o : Outcome) (a : App) : App :=
  match o with
  | Fulfilled => onSettled m (onSuccess m a)
  | Rejected err => onSettled m (onError m err a)
  end.

End ReactQuery.

(** ** The mutations of the form and list components *)

(** components/Ingredients/AddIngredient.tsx *)
Module AddIngredient.
Import ReactQuery.
Definition mutation : MutationOptions :=
  {| onSuccess := fun a =>
       setIsOpen false (reset (showSuccessToast "Ingredient created successfully." a));
     onError := fun err a => handleError err a;
     onSettled := fun a => invalidateQueries ["ingredients"] a |}.
End AddIngredient.

(** components/Ingredients/EditIngredient.tsx *)
Module EditIngredient.
Import ReactQuery.
Definition mutation : MutationOptions :=
  {| onSuccess := fun a =>
       setIsOpen false (showSuccessToast "Ingredient updated successfully." a);
     onError := fun err a => handleError err a;
     onSettled := fun a => invalidateQueries ["ingredients"] a |}.
End EditIngredient.

(** components/Recipes/AddRecipe.tsx *)
Module AddRecipe.
Import ReactQuery.
Definition mutation : MutationOptions :=
  {| onSuccess := fun a =>
       setIsOpen false (reset (showSuccessToast "Recipe created successfully." a));
     onError := fun err a => handleError err a;
     onSettled := fun a => invalidateQueries ["recipes"] a |}.
End AddRecipe.

(** components/Recipes/EditRecipe (second component of AddRecipe.tsx);
    [recipe_id] is [recipe.id] of the component's prop. *)
Module EditRecipe.
Import ReactQuery.
Definition mutation (recipe_id : string) : MutationOptions :=
  {| onSuccess := fun a =>
       setIsOpen false (showSuccessToast "Recipe updated successfully." a);
     onError := fun err a => handleError err a;
     onSettled := fun a =>
       invalidateQueries ["recipe"; recipe_id] (invalidateQueries ["recipes"] a) |}.
End EditRecipe.

(** AddUserIngredient (src/unnamed/part_002) *)
Module AddUserIngredient.
Import ReactQuery.
Definition mutation : MutationOptions :=
  {| onSuccess := fun a =>
       setIsOpen false
         (reset (showSuccessToast "Ingredient added to your pantry successfully." a));
     onError := fun err a => handleError err a;
     onSettled := fun a => invalidateQueries ["user-ingredients"] a |}.
End AddUserIngredient.

(** components/Recipes/AddRecipeIngredient.tsx *)
Module AddRecipeIngredient.
Import ReactQuery.
Definition mutation (recipeId : string) : MutationOptions :=
  {| onSuccess := fun a =>
       setIsOpen false
         (reset (showSuccessToast "Ingredient added to recipe successfully." a));
     onError := fun err a => handleError err a;
     onSettled := fun a => invalidateQueries ["recipe-ingredients"; recipeId] a |}.
End AddRecipeIngredient.

(** components/Recipes/RecipeIngredients.tsx: the component has no dialog
    of its own (removal is confirmed with [window.confirm]); the dialog on
    screen is the one of its [AddRecipeIngredient] child. *)
Module RecipeIngredients.
Import ReactQuery.
Definition deleteMutation (recipeId : string) : MutationOptions :=
  {| onSuccess := fun a =>
       showSuccessToast "Ingredient removed from recipe successfully." a;
     onError := fun err a => handleError err a;
     onSettled := fun a => invalidateQueries ["recipe-ingredients"; recipeId] a |}.
End RecipeIngredients.

(** ** The calls made to the generated API client *)

Module Client.

Inductive Call : Type :=
| getRecipeSuggestions (minMatchScore limit : float)
| readIngredients (skip limit : float) (search : option string)
| readRecipes (skip limit : float) (search : option string)
| readUserIngredients (skip limit : float) (expiringSoon : bool) (daysAhead : float).

(** The options a route passes to [useQuery]: the call its [queryFn]
    makes, and the key under which the result is cached. *)
Record QueryOptions : Type := mkOptions {
  queryFn : Call;
  queryKey : ReactQuery.QueryKey
}.

(** A paginated response of the service. *)
Record Page (T : Type) : Type := mkPage {
  page_data : list T;
  page_count : float
}.
Arguments mkPage {T}.
Arguments page_data {T}.
Arguments page_count {T}.

(** [search || undefined] *)
Definition or_undefined (search : string) : option string :=
  if String.eqb search "" then None else Some search.

End Client.

(** ** The ingredients route (routes/_layout/ingredients.tsx) *)

Module Ingredients.
Import Js ReactQuery Client.

Record Search : Type := mkSearch {
  page : float;
  search : string
}.

Definition ingredientsSearchSchema (url : gmap string Val) : Search :=
  {| page := Zod.catch 1%float (Zod.number (url !! "page"));
     search := Zod.catch "" (Zod.string (url !! "search")) |}.

Definition PER_PAGE : float := 10.

Definition getIngredientsQueryOptions (s : Search) : QueryOptions :=
  {| queryFn :=
       readIngredients ((page s - 1) * PER_PAGE)%float PER_PAGE (or_undefined (search s));
     queryKey :=
       [KStr "ingredients"; KObj [("page", VNum (page s)); ("search", VStr (search s))]] |}.

(** [Route.validateSearch], and [Route.useSearch] which returns its result. *)
Definition validateSearch (url : gmap string Val) : Search := ingredientsSearchSchema url.

Definition setPage (page : float) (prev : gmap string Val) : gmap string Val :=
  <["page" := VNum page]> prev.

Definition handleSearch (newSearch : string) (prev : gmap string Val) : gmap string Val :=
  <["page" := VNum 1]> (<["search" := VStr newSearch]> prev).

Record IngredientPublic : Type := mkIngredient {
  id : string;
  name : string;
  category : option string;
  unit : string
}.

Record Row : Type := mkRow {
  row_key : string;
  name_cell : string;
  category_cell : string;
  unit_cell : string
}.

Inductive View : Type :=
| PendingItems
| EmptyState
| Table (rows : list Row).

(** The rows on screen. *)
Definition rows_of (v : View) : list Row :=
  match v with
  | Table rows => rows
  | _ => []
  end.

Definition row (ingredient : IngredientPublic) : Row :=
  {| row_key := id ingredient;
     name_cell := name ingredient;
     category_cell :=
       match category ingredient with
       | Some c => if String.eqb c "" then "N/A" else c
       | None => "N/A"
       end;
     unit_cell := unit ingredient |}.

(** The options [IngredientsTable] passes to [useQuery]. *)
Definition IngredientsTable_query (url : gmap string Val) : QueryOptions :=
  getIngredientsQueryOptions (validateSearch url).

Definition IngredientsTable (q : UseQueryResult (Page IngredientPublic)) : View :=
  let ingredients :=
    match data q with
    | Some d => slice0 (page_data d) PER_PAGE
    | None => []
    end in
  if isLoading q then PendingItems
  else if (length ingredients =? 0)%nat then EmptyState
  else Table (map row ingredients).

End Ingredients.

(** ** The recipes route (routes/_layout/recipes.tsx) *)

Module Recipes.
Import Js ReactQuery Client.

Record Search : Type := mkSearch {
  page : float;
  search : string
}.

Definition recipesSearchSchema (url : gmap string Val) : Search :=
  {| page := Zod.catch 1%float (Zod.number (url !! "page"));
     search := Zod.catch "" (Zod.string (url !! "search")) |}.

Definition PER_PAGE : float := 10.

Definition getRecipesQueryOptions (s : Search) : QueryOptions :=
  {| queryFn :=
       readRecipes ((page s - 1) * PER_PAGE)%float PER_PAGE (or_undefined (search s));
     queryKey :=
       [KStr "recipes"; KObj [("page", VNum (page s)); ("search", VStr (search s))]] |}.

Definition validateSearch (url : gmap string Val) : Search := recipesSearchSchema url.

Definition setPage (page : float) (prev : gmap string Val) : gmap string Val :=
  <["page" := VNum page]> prev.

Definition handleSearch (newSearch : string) (prev : gmap string Val) : gmap string Val :=
  <["page" := VNum 1]> (<["search" := VStr newSearch]> prev).

(** The copy of [formatTime] inside [RecipesTable], on integers: for a
    safe integer [Math.floor(minutes / 60)] is the quotient [m / 60] and
    [minutes % 60] the remainder [Z.rem m 60].  What the same lines compute
    on a larger number is [Binary64.formatTime] below. *)
Definition formatTime (minutes : OptInt) : string :=
  match minutes with
  | IUndefined | INull => "N/A"
  | INum m =>
      if negb (truthy (INum m)) then "N/A"
      else if m <? 60 then toString m ++ "m"
      else
        let hours := m / 60 in
        let remainingMinutes := Z.rem m 60 in
        if 0 <? remainingMinutes
        then toString hours ++ "h " ++ toString remainingMinutes ++ "m"
        else toString hours ++ "h"
  end.

Record RecipePublic : Type := mkRecipe {
  id : string;
  name : string;
  prep_time_minutes : OptInt;
  cook_time_minutes : OptInt
}.

(** The name, preparation time and cooking time cells of a table row; the
    other cells print fields of the recipe as they are and are left out. *)
Record Row : Type := mkRow {
  row_key : string;
  name_cell : string;
  prep_cell : string;
  cook_cell : string
}.

Inductive View : Type :=
| PendingItems
| EmptyState
| Table (rows : list Row).

(** The rows on screen. *)
Definition rows_of (v : View) : list Row :=
  match v with
  | Table rows => rows
  | _ => []
  end.

Definition row (recipe : RecipePublic) : Row :=
  {| row_key := id recipe;
     name_cell := name recipe;
     prep_cell := formatTime (prep_time_minutes recipe);
     cook_cell := formatTime (cook_time_minutes recipe) |}.

Definition RecipesTable_query (url : gmap string Val) : QueryOptions :=
  getRecipesQueryOptions (validateSearch url).

Definition RecipesTable (q : UseQueryResult (Page RecipePublic)) : View :=
  let recipes :=
    match data q with
    | Some d => slice0 (page_data d) PER_PAGE
    | None => []
    end in
  if isLoading q then PendingItems
  else if (length recipes =? 0)%nat then EmptyState
  else Table (map row recipes).

End Recipes.

(** ** The recipe page (routes/_layout/recipes.$id.tsx) *)

Module RecipeDetail.
Import Js Jsx.

(** [None] is JavaScript's [null]; the arithmetic is that of the safe
    integers, as in [Recipes.formatTime]. *)
Definition formatTime (minutes : OptInt) : option string :=
  match minutes with
  | IUndefined | INull => None
  | INum m =>
      if negb (truthy (INum m)) then None
      else if m <? 60 then Some (toString m ++ "m")
      else
        let hours := m / 60 in
        let remainingMinutes := Z.rem m 60 in
        if 0 <? remainingMinutes
        then Some (toString hours ++ "h " ++ toString remainingMinutes ++ "m")
        else Some (toString hours ++ "h")
  end.

(** [{recipe.prep_time_minutes && (... Prep: {formatTime(...)} ...)}] *)
Definition prep_time (prep_time_minutes : OptInt) : list Child :=
  and_then prep_time_minutes [CText "Prep: "; child (formatTime prep_time_minutes)].

Definition cook_time (cook_time_minutes : OptInt) : list Child :=
  and_then cook_time_minutes [CText "Cook: "; child (formatTime cook_time_minutes)].

End RecipeDetail.

(** ** The pantry route (src/unnamed/part_001) *)

Module Pantry.
Import Js Jsx ReactQuery Client.

Record Search : Type := mkSearch {
  page : float;
  expiring_soon : bool
}.

Definition pantrySearchSchema (url : gmap string Val) : Search :=
  {| page := Zod.catch 1%float (Zod.number (url !! "page"));
     expiring_soon := Zod.catch false (Zod.boolean (url !! "expiring_soon")) |}.

Definition PER_PAGE : float := 10.

Definition getUserIngredientsQueryOptions (s : Search) : QueryOptions :=
  {| queryFn :=
       readUserIngredients ((page s - 1) * PER_PAGE)%float PER_PAGE (expiring_soon s) 7;
     queryKey :=
       [KStr "user-ingredients";
        KObj [("page", VNum (page s)); ("expiring_soon", VBool (expiring_soon s))]] |}.

Definition validateSearch (url : gmap string Val) : Search := pantrySearchSchema url.

Definition setPage (page : float) (prev : gmap string Val) : gmap string Val :=
  <["page" := VNum page]> prev.

Definition toggleExpiringSoon (checked : bool) (prev : gmap string Val) : gmap string Val :=
  <["page" := VNum 1]> (<["expiring_soon" := VBool checked]> prev).

Record IngredientPublic : Type := mkIngredient {
  name : string;
  unit : string
}.

Record UserIngredientPublic : Type := mkUserIngredient {
  id : string;
  amount : float;
  expiration_date : option string;
  notes : option string;
  ingredient : option IngredientPublic
}.

(** The expiration cell: the date and its two badges, or the
    "No expiration" placeholder. *)
Inductive ExpirationCell : Type :=
| NoExpiration
| Expiration (date : string) (expired_badge soon_badge : bool).

Record Row : Type := mkRow {
  row_key : string;
  ingredient_cell : string;
  amount_cell : list Child;
  expiration_cell : ExpirationCell;
  notes_cell : string
}.

Inductive View : Type :=
| PendingItems
| EmptyState
| Table (rows : list Row).

(** The rows on screen. *)
Definition rows_of (v : View) : list Row :=
  match v with
  | Table rows => rows
  | _ => []
  end.

(** [s || d] for an optional string. *)
Definition or_else (s : option string) (d : string) : string :=
  match s with
  | Some t => if String.eqb t "" then d else t
  | None => d
  end.

(** The options [PantryTable] passes to [useQuery]. *)
Definition PantryTable_query (url : gmap string Val) : QueryOptions :=
  getUserIngredientsQueryOptions (validateSearch url).

(** Rendering reads the system clock: every [new Date()] takes the next
    reading.  [clock n] is the n-th reading in milliseconds since the
    epoch; a computation maps the number of readings taken so far to its
    result and the new number.  [Date_parse] is the date parser of the
    runtime, [None] standing for an invalid date, which compares false
    with everything. *)
Section Clock.
Variable Date_parse : string -> option Z.
Variable clock : nat -> Z.

Definition M (A : Type) : Type := nat -> A * nat.

Definition ret {A} (a : A) : M A := fun n => (a, n).

Definition bind {A B} (m : M A) (k : A -> M B) : M B :=
  fun n => let (a, n') := m n in k a n'.

Definition new_Date : M Z := fun n => (clock n, S n).

Definition isExpiringSoon (expirationDate : option string) : M bool :=
  match expirationDate with
  | None => ret false
  | Some d =>
      if String.eqb d "" then ret false
      else
        let expDate := Date_parse d in
        bind new_Date (fun today =>
        ret match expDate with
            | Some e =>
                let daysUntilExpiry := ceil_div (e - today) (1000 * 60 * 60 * 24) in
                (daysUntilExpiry <=? 7) && (0 <=? daysUntilExpiry)
            | None => false
            end)
  end.

Definition isExpired (expirationDate : option string) : M bool :=
  match expirationDate with
  | None => ret false
  | Some d =>
      if String.eqb d "" then ret false
      else
        let expDate := Date_parse d in
        bind new_Date (fun today =>
        ret match expDate with
            | Some e => e <? today
            | None => false
            end)
  end.

(** The third cell of a row: [isExpired] guards the "Expired" badge,
    and [!isExpired && isExpiringSoon] the "Soon" badge. *)
Definition expiration (userIngredient : UserIngredientPublic) : M ExpirationCell :=
  match expiration_date userIngredient with
  | None => ret NoExpiration
  | Some d =>
      if String.eqb d "" then ret NoExpiration
      else
        bind (isExpired (Some d)) (fun expired =>
        bind (isExpired (Some d)) (fun expired' =>
        bind (if negb expired' then isExpiringSoon (Some d) else ret false) (fun soon =>
        ret (Expiration d expired (negb expired' && soon)))))
  end.

Definition row (userIngredient : UserIngredientPublic) : M Row :=
  bind (expiration userIngredient) (fun cell =>
  ret {| row_key := id userIngredient;
         ingredient_cell := or_else (option_map name (ingredient userIngredient)) "Unknown";
         amount_cell :=
           [CNum (amount userIngredient); CText " ";
            CText (or_else (option_map unit (ingredient userIngredient)) "")];
         expiration_cell := cell;
         notes_cell := or_else (notes userIngredient) "N/A" |}).

Fixpoint rows (l : list UserIngredientPublic) : M (list Row) :=
  match l with
  | [] => ret []
  | u :: l' => bind (row u) (fun r => bind (rows l') (fun rs => ret (r :: rs)))
  end.

Definition PantryTable (q : UseQueryResult (Page UserIngredientPublic)) : M View :=
  let userIngredients :=
    match data q with
    | Some d => slice0 (page_data d) PER_PAGE
    | None => []
    end in
  if isLoading q then ret PendingItems
  else if (length userIngredients =? 0)%nat then ret EmptyState
  else bind (rows userIngredients) (fun rs => ret (Table rs)).

End Clock.

End Pantry.

(** ** The suggestions route (src/unnamed/part_000) *)

Module Suggestions.
Import Js Jsx ReactQuery Client.

Record Search : Type := mkSearch {
  min_match_score : float;
  limit : float
}.

Definition suggestionsSearchSchema (url : gmap string Val) : Search :=
  {| min_match_score :=
       Zod.catch 0.3%float
         (Zod.max 1 (Zod.min 0 (Zod.number (url !! "min_match_score"))));
     limit :=
       Zod.catch 10%float (Zod.max 50 (Zod.min 1 (Zod.number (url !! "limit")))) |}.

Definition getRecipeSuggestionsQueryOptions (s : Search) : QueryOptions :=
  {| queryFn := getRecipeSuggestions (min_match_score s) (limit s);
     queryKey :=
       [KStr "recipe-suggestions";
        KObj [("min_match_score", VNum (min_match_score s)); ("limit", VNum (limit s))]] |}.

Definition validateSearch (url : gmap string Val) : Search := suggestionsSearchSchema url.

(** The objects returned by the service. *)
Record IngredientPublic : Type := mkIngredient {
  name : string;
  unit : string
}.

Record RecipeIngredient : Type := mkRecipeIngredient {
  id : string;
  amount : float;
  ingredient : option IngredientPublic
}.

Record Recipe : Type := mkRecipe {
  recipe_id : string;
  recipe_name : string;
  prep_time_minutes : OptInt;
  cook_time_minutes : OptInt
}.

Record Suggestion : Type := mkSuggestion {
  recipe : Recipe;
  match_score : float;
  available_ingredients : list RecipeIngredient;
  missing_ingredients : list RecipeIngredient;
  total_ingredients : float;
  available_count : float
}.

(** The card of a suggestion: title, match badge, preparation and cooking
    times, and the ingredients block (heading, progress bar, and the
    "Available:" and "Missing:" groups, each present only when its list
    is not empty).  The description, cuisine, difficulty, servings and
    instructions lines print fields of the recipe as they are and are left
    out. *)
Record Card : Type := mkCard {
  heading : string;
  match_badge : Badge;
  prep_time : list Child;
  cook_time : list Child;
  ingredients_heading : list Child;
  progress : Progress;
  available_group : option (list Badge);
  missing_group : option (list Badge)
}.

(** The copy of [formatTime] inside [RecipeSuggestionCard], on integers as
    in [Recipes.formatTime]. *)
Definition formatTime (minutes : OptInt) : option string :=
  match minutes with
  | IUndefined | INull => None
  | INum m =>
      if negb (truthy (INum m)) then None
      else if m <? 60 then Some (toString m ++ "m")
      else
        let hours := m / 60 in
        let remainingMinutes := Z.rem m 60 in
        if 0 <? remainingMinutes
        then Some (toString hours ++ "h " ++ toString remainingMinutes ++ "m")
        else Some (toString hours ++ "h")
  end.

Definition getMatchScoreColor (score : float) : string :=
  if (0.8 <=? score)%float then "green"
  else if (0.6 <=? score)%float then "orange"
  else "red".

(** [{ing.ingredient?.name} ({ing.amount}{" "}{ing.ingredient?.unit})] *)
Definition ingredient_badge (palette : string) (ing : RecipeIngredient) : Badge :=
  {| badge_key := Some (id ing);
     colorPalette := palette;
     badge_children :=
       [child (option_map name (ingredient ing)); CText " (";
        CNum (amount ing); CText " ";
        child (option_map unit (ingredient ing)); CText ")"] |}.

(** [list.length > 0 && (... list.map(badge) ...)] *)
Definition group (palette : string) (l : list RecipeIngredient) : option (list Badge) :=
  if (0 <? length l)%nat then Some (map (ingredient_badge palette) l) else None.

Definition RecipeSuggestionCard (suggestion : Suggestion) : Card :=
  let recipe := recipe suggestion in
  let match_score := match_score suggestion in
  let available_ingredients := available_ingredients suggestion in
  let missing_ingredients := missing_ingredients suggestion in
  let total_ingredients := total_ingredients suggestion in
  let available_count := available_count suggestion in
  {| heading := recipe_name recipe;
     match_badge :=
       {| badge_key := None;
          colorPalette := getMatchScoreColor match_score;
          badge_children := [CNum (Math_round (match_score * 100)); CText "% match"] |};
     prep_time :=
       and_then (prep_time_minutes recipe)
         [CText "Prep: "; child (formatTime (prep_time_minutes recipe))];
     cook_time :=
       and_then (cook_time_minutes recipe)
         [CText "Cook: "; child (formatTime (cook_time_minutes recipe))];
     ingredients_heading :=
       [CText "Ingredients ("; CNum available_count; CText "/";
        CNum total_ingredients; CText " available)"];
     progress :=
       {| progress_value := (available_count / total_ingredients) * 100;
          progress_colorPalette := getMatchScoreColor match_score |};
     available_group := group "green" available_ingredients;
     missing_group := group "red" missing_ingredients |}.

(** The list under the filter form: the cards, each under its key. *)
Inductive View : Type :=
| PendingItems
| EmptyState
| Cards (cards : list (string * Card)).

(** The cards on screen. *)
Definition cards_of (v : View) : list (string * Card) :=
  match v with
  | Cards cards => cards
  | _ => []
  end.

(** The options [SuggestionsContent] passes to [useQuery]. *)
Definition SuggestionsContent_query (url : gmap string Val) : QueryOptions :=
  getRecipeSuggestionsQueryOptions (validateSearch url).

Definition SuggestionsContent (q : UseQueryResult (Page Suggestion)) : View :=
  let suggestions :=
    match data q with
    | Some d => page_data d
    | None => []
    end in
  if isLoading q then PendingItems
  else if (length suggestions =? 0)%nat then EmptyState
  else Cards (map (fun suggestion =>
                     (recipe_id (recipe suggestion), RecipeSuggestionCard suggestion))
                  suggestions).

End Suggestions.

(** ** The seven mutations of the repository *)

Module Mutations.
Import ReactQuery.

Inductive Mutation : Type :=
| CreateIngredient
| UpdateIngredient
| CreateRecipe
| UpdateRecipe (recipe_id : string)
| AddPantryIngredient
| AddRecipeIngredient (recipeId : string)
| DeleteRecipeIngredient (recipeId : string).

Definition options (m : Mutation) : MutationOptions :=
  match m with
  | CreateIngredient => AddIngredient.mutation
  | UpdateIngredient => EditIngredient.mutation
  | CreateRecipe => AddRecipe.mutation
  | UpdateRecipe recipe_id => EditRecipe.mutation recipe_id
  | AddPantryIngredient => AddUserIngredient.mutation
  | AddRecipeIngredient recipeId => AddRecipeIngredient.mutation recipeId
  | DeleteRecipeIngredient recipeId => RecipeIngredients.deleteMutation recipeId
  end.

(** The query keys that belong to a mutation: the list (and, for a
    recipe, the detail) queries that display what it changes. *)
Definition keys (m : Mutation) : list (list string) :=
  match m with
  | CreateIngredient | UpdateIngredient => [["ingredients"]]
  | CreateRecipe => [["recipes"]]
  | UpdateRecipe recipe_id => [["recipes"]; ["recipe"; recipe_id]]
  | AddPantryIngredient => [["user-ingredients"]]
  | AddRecipeIngredient recipeId | DeleteRecipeIngredient recipeId =>
      [["recipe-ingredients"; recipeId]]
  end.

(** Whether the component of the mutation owns a form dialog. *)
Definition has_dialog (m : Mutation) : bool :=
  match m with
  | DeleteRecipeIngredient _ => false
  | _ => true
  end.

Definition matches (m : Mutation) (q : Query) : bool :=
  existsb (partialMatchKey (queryKey q)) (keys m).

(** Invalidation with several keys, one after the other. *)
Definition invalidate_all (ks : list (list string)) (q : Query) : Query :=
  fold_left (fun q k => invalidate k q) ks q.

End Mutations.

(** ** Sample data *)

Module Samples.
Import Js Suggestions.

Definition pasta : Recipe :=
  {| recipe_id := "r1"; recipe_name := "Pasta";
     prep_time_minutes := INum 15; cook_time_minutes := INum 0 |}.

(** A suggestion whose score is not a number. *)
Definition unscored : Suggestion :=
  {| recipe := pasta; match_score := nan;
     available_ingredients := []; missing_ingredients := [];
     total_ingredients := 0; available_count := 0 |}.

(** The URL search object of [?page=3]. *)
Definition page_three : gmap string Val := <["page" := VNum 3]> ∅.

(** A pantry entry that expires on 10 January 2025, a date parser that
    knows this date (midnight UTC, in milliseconds), and a clock started
    on 4 January 2025 that advances by one millisecond per reading. *)
Definition milk : Pantry.UserIngredientPublic :=
  {| Pantry.id := "u1"; Pantry.amount := 1;
     Pantry.expiration_date := Some "2025-01-10"; Pantry.notes := None;
     Pantry.ingredient := Some {| Pantry.name := "Milk"; Pantry.unit := "l" |} |}.

Definition parse (s : string) : option Z :=
  if String.eqb s "2025-01-10" then Some 1736467200000 else None.

Definition ticking (n : nat) : Z := 1736000000000 + Z.of_nat n.



(** An application state in which the dialog on screen is open. *)
Definition dialog_open : ReactQuery.App :=
  ReactQuery.mkApp true [] [] 0
    [ReactQuery.mkQuery [ReactQuery.KStr "recipe-ingredients"; ReactQuery.KStr "r1"] false].

End Samples.

(** ** Text built-ins

    The texts of the forms and of the difficulty badge are sequences of
    one-byte characters (Latin-1); a text that is measured and cut, where
    JavaScript counts UTF-16 code units, is the list of its code units. *)

Module JsText.

(** [String.prototype.toLowerCase] on one character: A-Z and the accented
    capitals (all of 0xC0-0xDE but the multiplication sign 0xD7) move up by
    32. *)
Definition lower_char (c : ascii) : ascii :=
  let n := N_of_ascii c in
  if ((65 <=? n) && (n <=? 90) || (192 <=? n) && (n <=? 222) && negb (n =? 215))%N
  then ascii_of_N (n + 32)
  else c.

Fixpoint toLowerCase (s : string) : string :=
  match s with
  | EmptyString => EmptyString
  | String c t => String (lower_char c) (toLowerCase t)
  end.

(** A UTF-16 code unit, and a text as the list of its code units: the
    elements that [length] counts and [substring] selects. *)
Definition CodeUnit : Type := N.

Definition Utf16 : Type := list CodeUnit.

(** [s.substring(0, n)] *)
Definition substring0 (n : nat) (s : Utf16) : Utf16 := take n s.

(** The three full stops of ["..."]. *)
Definition dots : Utf16 := [46%N; 46%N; 46%N].

(** [StrWhiteSpaceChar]: TAB, LF, VT, FF, CR, space and the no-break
    space. *)
Definition is_space (c : ascii) : bool :=
  let n := N_of_ascii c in
  ((9 <=? n) && (n <=? 13) || (n =? 32) || (n =? 160))%N.

Fixpoint trim_start (s : string) : string :=
  match s with
  | EmptyString => EmptyString
  | String c t => if is_space c then trim_start t else s
  end.

(** The value of a character as a digit in the given radix. *)
Definition digit_of (radix : Z) (c : ascii) : option Z :=
  let n := Z.of_N (N_of_ascii c) in
  let v :=
    if (48 <=? n) && (n <=? 57) then Some (n - 48)
    else if (97 <=? n) && (n <=? 102) then Some (n - 87)
    else if (65 <=? n) && (n <=? 70) then Some (n - 55)
    else None in
  match v with
  | Some d => if d <? radix then Some d else None
  | None => None
  end.

(** The value of the longest prefix of digits, continuing from [acc]. *)
Fixpoint digits (radix acc : Z) (s : string) : Z :=
  match s with
  | EmptyString => acc
  | String c t =>
      match digit_of radix c with
      | Some d => digits radix (acc * radix + d) t
      | None => acc
      end
  end.

(** [Number.parseInt(s)] without a radix argument: leading white space and
    a sign are skipped, a [0x] or [0X] prefix selects radix 16, and the
    longest prefix of digits is read; [None] is NaN (no digit).  The result
    is the integer the digits denote, which is the number returned as long
    as that integer is safe (at most 15 decimal digits are always safe);
    a longer text is rounded to the nearest number. *)
Definition parseInt (s : string) : option Z :=
  let s1 := trim_start s in
  let (sign, s2) :=
    match s1 with
    | String "-" r => (-1, r)
    | String "+" r => (1, r)
    | _ => (1, s1)
    end in
  let (radix, s3) :=
    match s2 with
    | String "0" (String "x" r) | String "0" (String "X" r) => (16, r)
    | _ => (10, s2)
    end in
  match s3 with
  | EmptyString => None
  | String c _ =>
      match digit_of radix c with
      | Some _ => Some (sign * digits radix 0 s3)
      | None => None
      end
  end.

(** A text matches [/^\d+$/]. *)
Fixpoint all_digits (s : string) : bool :=
  match s with
  | EmptyString => true
  | String c t =>
      let n := N_of_ascii c in
      ((48 <=? n) && (n <=? 57))%N && all_digits t
  end.

Definition matches_digits (s : string) : bool :=
  negb (String.eqb s "") && all_digits s.

(** [s || undefined] and [s || d] for a text. *)
Definition or_undefined (s : string) : option string :=
  if String.eqb s "" then None else Some s.

Definition or_default (s : option string) (d : string) : string :=
  match s with
  | Some t => if String.eqb t "" then d else t
  | None => d
  end.

(** A text that is present and not empty (a truthy [string | null]). *)
Definition present (s : option string) : option string :=
  match s with
  | Some t => if String.eqb t "" then None else Some t
  | None => None
  end.

End JsText.

(** ** The difficulty badge (three copies of [getDifficultyColor]) *)

(** recipes.tsx, inside [RecipesTable]; [None] is [null] or [undefined]. *)
Module RecipesTable.
Import JsText.

Definition getDifficultyColor (difficulty : option string) : string :=
  match difficulty with
  | None => "gray"
  | Some d =>
      if String.eqb d "" then "gray"
      else
        let l := toLowerCase d in
        if String.eqb l "easy" then "green"
        else if String.eqb l "medium" then "orange"
        else if String.eqb l "hard" then "red"
        else "gray"
  end.

End RecipesTable.

(** recipes.$id.tsx, inside [RecipeDetail]. *)
Module RecipeDetailPage.
Import JsText.

Definition getDifficultyColor (difficulty : option string) : string :=
  match difficulty with
  | None => "gray"
  | Some d =>
      if String.eqb d "" then "gray"
      else
        let l := toLowerCase d in
        if String.eqb l "easy" then "green"
        else if String.eqb l "medium" then "orange"
        else if String.eqb l "hard" then "red"
        else "gray"
  end.

End RecipeDetailPage.

(** src/unnamed/part_000, inside [RecipeSuggestionCard]. *)
Module RecipeSuggestionCard.
Import JsText.

Definition getDifficultyColor (difficulty : option string) : string :=
  match difficulty with
  | None => "gray"
  | Some d =>
      if String.eqb d "" then "gray"
      else
        let l := toLowerCase d in
        if String.eqb l "easy" then "green"
        else if String.eqb l "medium" then "orange"
        else if String.eqb l "hard" then "red"
        else "gray"
  end.

(** The text under "Instructions:", when the block is rendered:
    [instructions.length > 200 ? `${instructions.substring(0, 200)}...`
    : instructions]. *)
Definition instructions_text (instructions : option Utf16) : option Utf16 :=
  match instructions with
  | None => None
  | Some s =>
      if (length s =? 0)%nat then None
      else Some (if (200 <? length s)%nat
                 then (substring0 200 s ++ dots)%list
                 else s)
  end.

End RecipeSuggestionCard.

(** ** The filter form of the suggestions route (src/unnamed/part_000) *)

Module SuggestionsFilters.
Import Js.

(** [updateFilters]: navigates to a search object made of the two slider
    values alone. *)
Definition updateFilters (minMatchScore maxResults : float) : gmap string Val :=
  <["limit" := VNum maxResults]> (<["min_match_score" := VNum minMatchScore]> ∅).

End SuggestionsFilters.

(** ** The edit form of an ingredient (components/Ingredients/EditIngredient.tsx) *)

Module EditIngredientForm.
Import JsText.

Record FormData : Type := mkForm {
  name : string;
  category : string;
  unit : string
}.

(** The effect that fills the form when the dialog opens. *)
Definition populate (isOpen : bool) (ingredient : Ingredients.IngredientPublic)
    (form : FormData) : FormData :=
  if isOpen
  then {| name := or_default (Some (Ingredients.name ingredient)) "";
          category := or_default (Ingredients.category ingredient) "";
          unit := or_default (Some (Ingredients.unit ingredient)) "grams" |}
  else form.

(** The request body [IngredientUpdate]. *)
Record IngredientUpdate : Type := mkUpdate {
  update_name : string;
  update_category : option string;
  update_unit : string
}.

Definition onSubmit (data : FormData) : IngredientUpdate :=
  {| update_name := name data;
     update_category := or_undefined (category data);
     update_unit := unit data |}.

(** The form library calls [onSubmit] only when the registered rules hold:
    the name is required. *)
Definition rules_hold (data : FormData) : bool := negb (String.eqb (name data) "").

(** [handleSubmit(onSubmit)]: the body sent, if any. *)
Definition handleSubmit (data : FormData) : option IngredientUpdate :=
  if rules_hold data then Some (onSubmit data) else None.

End EditIngredientForm.

(** ** The recipe forms (components/Recipes/AddRecipe.tsx, which also holds
    EditRecipe) *)

Module RecipeForm.
Import Js JsText.

Record FormData : Type := mkForm {
  name : string;
  description : string;
  instructions : string;
  prep_time_minutes : string;
  cook_time_minutes : string;
  servings : string;
  difficulty : string;
  cuisine : string
}.

(** A field of type [number | undefined] computed by [Number.parseInt]. *)
Inductive NumField : Type :=
| NUndefined
| NNaN
| NInt (n : Z).

(** [text ? Number.parseInt(text) : undefined] *)
Definition parse_field (text : string) : NumField :=
  if String.eqb text "" then NUndefined
  else match parseInt text with
       | Some n => NInt n
       | None => NNaN
       end.

(** The request bodies [RecipeCreate] and [RecipeUpdate]. *)
Record RecipeBody : Type := mkBody {
  body_name : string;
  body_description : option string;
  body_instructions : option string;
  body_prep_time_minutes : NumField;
  body_cook_time_minutes : NumField;
  body_servings : NumField;
  body_difficulty : option string;
  body_cuisine : option string
}.

(** [onSubmit] of [AddRecipe] and of [EditRecipe] (the same body). *)
Definition onSubmit (data : FormData) : RecipeBody :=
  {| body_name := name data;
     body_description := or_undefined (description data);
     body_instructions := or_undefined (instructions data);
     body_prep_time_minutes := parse_field (prep_time_minutes data);
     body_cook_time_minutes := parse_field (cook_time_minutes data);
     body_servings := parse_field (servings data);
     body_difficulty := or_undefined (difficulty data);
     body_cuisine := or_undefined (cuisine data) |}.

(** A rule [pattern: /^\d+$/] applies to a field that is not empty. *)
Definition pattern_ok (text : string) : bool :=
  String.eqb text "" || matches_digits text.

(** The registered rules: the name is required, the three numeric fields
    carry the digit pattern. *)
Definition rules_hold (data : FormData) : bool :=
  negb (String.eqb (name data) "")
  && pattern_ok (prep_time_minutes data)
  && pattern_ok (cook_time_minutes data)
  && pattern_ok (servings data).

(** [handleSubmit(onSubmit)]: the body sent, if any. *)
Definition handleSubmit (data : FormData) : option RecipeBody :=
  if rules_hold data then Some (onSubmit data) else None.

(** [RecipePublic] as the edit form reads it. *)
Record RecipePublic : Type := mkRecipe {
  recipe_name : string;
  recipe_description : option string;
  recipe_instructions : option string;
  recipe_prep_time_minutes : OptInt;
  recipe_cook_time_minutes : OptInt;
  recipe_servings : OptInt;
  recipe_difficulty : option string;
  recipe_cuisine : option string
}.

(** [n?.toString() || ""] *)
Definition number_text (v : OptInt) : string :=
  match v with
  | INum n => or_default (Some (toString n)) ""
  | _ => ""
  end.

(** The effect of [EditRecipe] that fills the form when the dialog opens. *)
Definition populate (isOpen : bool) (recipe : RecipePublic) (form : FormData) : FormData :=
  if isOpen
  then {| name := or_default (Some (recipe_name recipe)) "";
          description := or_default (recipe_description recipe) "";
          instructions := or_default (recipe_instructions recipe) "";
          prep_time_minutes := number_text (recipe_prep_time_minutes recipe);
          cook_time_minutes := number_text (recipe_cook_time_minutes recipe);
          servings := number_text (recipe_servings recipe);
          difficulty := or_default (recipe_difficulty recipe) "";
          cuisine := or_default (recipe_cuisine recipe) "" |}
  else form.

(** A number of the recipe that the form sends back as it is: absent, or
    a safe integer that is not negative. *)
Definition sendable (v : OptInt) : Prop :=
  match v with
  | INum n => 0 <= n < 2 ^ 53
  | _ => True
  end.

(** The values of the difficulty select of [EditRecipe]. *)
Definition difficultyOptions : list string := ["Easy"; "Medium"; "Hard"].

End RecipeForm.

(** ** The ingredient list of a recipe (components/Recipes/RecipeIngredients.tsx) *)

Module RecipeIngredientsTable.
Import Js JsText Jsx ReactQuery.

Record IngredientPublic : Type := mkIngredient {
  name : string;
  category : option string;
  unit : string
}.

Record RecipeIngredientPublic : Type := mkRecipeIngredient {
  id : string;
  amount : float;
  notes : option string;
  ingredient : option IngredientPublic
}.

Record Row : Type := mkRow {
  row_key : string;
  name_cell : string;
  category_badge : option string;
  amount_cell : list Child;
  notes_cell : string;
  notes_placeholder : bool
}.

Inductive View : Type :=
| PendingItems
| EmptyState
| Table (rows : list Row).

Definition rows_of (v : View) : list Row :=
  match v with
  | Table rows => rows
  | _ => []
  end.

Definition row (recipeIngredient : RecipeIngredientPublic) : Row :=
  {| row_key := id recipeIngredient;
     name_cell :=
       or_default (option_map name (ingredient recipeIngredient)) "Unknown Ingredient";
     category_badge :=
       match ingredient recipeIngredient with
       | Some i => present (category i)
       | None => None
       end;
     amount_cell :=
       [CNum (amount recipeIngredient); CText " ";
        CText (or_default (option_map unit (ingredient recipeIngredient)) "units")];
     notes_cell := or_default (notes recipeIngredient) "No notes";
     notes_placeholder :=
       match present (notes recipeIngredient) with
       | Some _ => false
       | None => true
       end |}.

(** The key under which the component caches its list. *)
Definition queryKey (recipeId : string) : QueryKey :=
  [KStr "recipe-ingredients"; KStr recipeId].

Definition RecipeIngredients
    (q : UseQueryResult (Client.Page RecipeIngredientPublic)) : View :=
  let recipeIngredients :=
    match data q with
    | Some d => Client.page_data d
    | None => []
    end in
  if isLoading q then PendingItems
  else if (length recipeIngredients =? 0)%nat then EmptyState
  else Table (map row recipeIngredients).

(** [handleDelete]: the mutation is started only if the user confirms;
    the result is the argument passed to [deleteMutation.mutate]. *)
Definition handleDelete (confirmed : bool) (ingredientId : string) : option string :=
  if confirmed then Some ingredientId else None.

End RecipeIngredientsTable.

(** ** The arithmetic of numbers (binary64)

    What the lines of [formatTime] compute on an integer of any size:
    the literal is read as the nearest number, the division is rounded,
    and the results are printed by [Number.prototype.toString]. *)

Module Binary64.
Import Js.

(** The number denoted by an integer literal: the nearest binary64 value,
    ties to even. *)
Definition Number (n : Z) : float := SF2Prim (binary_normalize prec emax n 0 false).

(** [Math.floor] *)
Definition Math_floor (x : float) : float :=
  if PrimFloat.is_nan x || PrimFloat.is_infinity x || PrimFloat.is_zero x then x
  else
    let a := PrimFloat.abs x in
    if (two52 <=? a)%float then x
    else
      let f := floor_abs a in
      if (0 <? x)%float then f
      else if (f <? a)%float then (- (f + 1))%float else (- f)%float.

(** [x % y] for a divisor that is a finite integer: NaN when [x] is not
    finite or [y] is zero, otherwise the remainder of the truncating
    division of the integral [x], which is computed exactly. *)
Definition rem (x y : float) : float :=
  if PrimFloat.is_nan x || PrimFloat.is_infinity x || PrimFloat.is_zero y then nan
  else Number (Z.rem (truncate x) (truncate y)).

(** The integer with the fewest significant digits that denotes the same
    number as [v], a positive integer of [n] digits: for k = 1, 2, ... the
    two multiples of 10^(n-k) around [v] are tried, and of two that fit
    the one closer to [v] is taken. *)
Fixpoint shortest (fuel : nat) (k n v : Z) : Z :=
  match fuel with
  | O => v
  | S fuel' =>
      if n <=? k then v
      else
        let p := 10 ^ (n - k) in
        let lo := v / p * p in
        let hi := lo + p in
        let fits c := (Number c =? Number v)%float in
        match fits lo, fits hi with
        | true, true =>
            if (v - lo <? hi - v) || ((v - lo =? hi - v) && Z.even (v / p))
            then lo else hi
        | true, false => lo
        | false, true => hi
        | false, false => shortest fuel' (k + 1) n v
        end
  end.

Fixpoint strip_zeros (digits : list ascii) : list ascii :=
  match digits with
  | [] => []
  | c :: t =>
      match strip_zeros t with
      | [] => if Ascii.eqb c "0" then [] else [c]
      | t' => c :: t'
      end
  end.

(** The text of a positive integer that carries the shortest digits: plain
    up to 21 digits, in exponent notation beyond. *)
Definition print (c : Z) : string :=
  let text := toString c in
  let n := Z.of_nat (String.length text) in
  if n <=? 21 then text
  else
    match strip_zeros (list_ascii_of_string text) with
    | [] => text
    | [d] => String d ("e+" ++ toString (n - 1))
    | d :: t => String d ("." ++ string_of_list_ascii t ++ "e+" ++ toString (n - 1))
    end.

(** [Number.prototype.toString] on an integral number. *)
Definition Number_toString (x : float) : string :=
  if PrimFloat.is_nan x then "NaN"
  else if PrimFloat.is_infinity x
       then (if (x <? 0)%float then "-Infinity" else "Infinity")
  else if PrimFloat.is_zero x then "0"
  else
    let v := Z.abs (truncate x) in
    let n := Z.of_nat (String.length (toString v)) in
    let text := print (shortest 17 1 n v) in
    if (x <? 0)%float then "-" ++ text else text.

(** [formatTime] of the recipe page and of the suggestion card, line by
    line, on the number read from an integer literal. *)
Definition formatTime (minutes : OptInt) : option string :=
  match minutes with
  | IUndefined | INull => None
  | INum n =>
      let minutes := Number n in
      if PrimFloat.is_zero minutes || PrimFloat.is_nan minutes then None
      else if (minutes <? 60)%float then Some (Number_toString minutes ++ "m")
      else
        let hours := Math_floor (minutes / 60) in
        let remainingMinutes := rem minutes 60 in
        if (0 <? remainingMinutes)%float
        then Some (Number_toString hours ++ "h " ++ Number_toString remainingMinutes ++ "m")
        else Some (Number_toString hours ++ "h")
  end.

(** The durations from [lo] on, [count] of them, on which [formatTime]
    gives the text computed on integers. *)
Fixpoint agree (count : nat) (lo : Z) : bool :=
  match count with
  | O => true
  | S count' =>
      match formatTime (INum lo), RecipeDetail.formatTime (INum lo) with
      | Some s, Some t => String.eqb s t
      | None, None => true
      | _, _ => false
      end && agree count' (lo + 1)
  end.

End Binary64.

(** * Properties *)

(** ** The order on numbers *)

Section FloatOrder.

Lemma SFcompare_antisym (x y : spec_float) :
  SFcompare y x = option_map CompOpp (SFcompare x y).
Proof.
  destruct x as [sx | sx | | sx mx ex], y as [sy | sy | | sy my ey]; simpl;
    try reflexivity; try (destruct sx; reflexivity); try (destruct sy; reflexivity);
    try (destruct sx, sy; reflexivity).
  destruct sx, sy; simpl; try reflexivity;
    rewrite (Z.compare_antisym ex ey); destruct (ex ?= ey)%Z; simpl; try reflexivity;
    rewrite (Pos.compare_cont_antisym mx my Eq); reflexivity.
Qed.

Lemma SFcompare_None (x y : spec_float) :
  SFcompare x y = None -> x = S754_nan \/ y = S754_nan.
Proof.
  destruct x as [sx | sx | | sx mx ex], y as [sy | sy | | sy my ey]; simpl;
    intros H; try discriminate H; auto.
Qed.

Lemma SFcompare_refl (x : spec_float) : x <> S754_nan -> SFcompare x x = Some Eq.
Proof.
  destruct x as [s | s | | s m e]; simpl; intros H; try reflexivity.
  - destruct s; reflexivity.
  - congruence.
  - destruct s; rewrite Z.compare_refl, Pos.compare_cont_refl; reflexivity.
Qed.

Lemma SFleb_trans (x y z : spec_float) :
  SFleb x y = true -> SFleb y z = true -> SFleb x z = true.
Proof.
  unfold SFleb, SFcompare.
  destruct x as [[] | [] | | [] mx ex], y as [[] | [] | | [] my ey],
           z as [[] | [] | | [] mz ez];
    simpl; try discriminate; try reflexivity;
    rewrite ?Pos.compare_cont_spec; simpl;
    destruct (Z.compare_spec ex ey), (Z.compare_spec ey ez), (Z.compare_spec ex ez);
    simpl; try discriminate; try reflexivity; try lia; subst;
    destruct (Pos.compare_spec mx my), (Pos.compare_spec my mz), (Pos.compare_spec mx mz);
    simpl; try discriminate; try reflexivity; try lia.
Qed.

Lemma is_nan_Prim2SF (x : float) :
  PrimFloat.is_nan x = false -> Prim2SF x <> S754_nan.
Proof.
  unfold PrimFloat.is_nan. rewrite FloatAxioms.eqb_spec.
  intros H E. rewrite E in H. discriminate H.
Qed.

Lemma leb_not_nan_r (x y : float) :
  (x <=? y)%float = true -> PrimFloat.is_nan y = false.
Proof.
  rewrite FloatAxioms.leb_spec. unfold PrimFloat.is_nan.
  rewrite FloatAxioms.eqb_spec. unfold SFleb, SFeqb. intros H.
  rewrite SFcompare_refl; [reflexivity |].
  intros E. rewrite E in H. destruct (Prim2SF x); discriminate H.
Qed.

Lemma leb_trans (x y z : float) :
  (x <=? y)%float = true -> (y <=? z)%float = true -> (x <=? z)%float = true.
Proof. rewrite !FloatAxioms.leb_spec. apply SFleb_trans. Qed.

(** Away from NaN the order is total. *)
Lemma ltb_negb_leb (x y : float) :
  PrimFloat.is_nan x = false -> PrimFloat.is_nan y = false ->
  (x <? y)%float = negb (y <=? x)%float.
Proof.
  intros Hx Hy. apply is_nan_Prim2SF in Hx, Hy.
  rewrite FloatAxioms.ltb_spec, FloatAxioms.leb_spec. unfold SFltb, SFleb.
  rewrite (SFcompare_antisym (Prim2SF x) (Prim2SF y)).
  destruct (SFcompare (Prim2SF x) (Prim2SF y)) as [[] |] eqn:E; simpl; try reflexivity.
  apply SFcompare_None in E. tauto.
Qed.

Lemma ltb_leb_false (x y : float) :
  (x <? y)%float = true -> (y <=? x)%float = false.
Proof.
  rewrite FloatAxioms.ltb_spec, FloatAxioms.leb_spec. unfold SFltb, SFleb.
  rewrite (SFcompare_antisym (Prim2SF x) (Prim2SF y)).
  destruct (SFcompare (Prim2SF x) (Prim2SF y)) as [[] |]; simpl; congruence.
Qed.

End FloatOrder.

(** ** The match badge and the progress bar *)

Section MatchDisplay.
Import Js Jsx Suggestions.

Lemma color_green (score : float) :
  getMatchScoreColor score = "green" <-> (0.8 <=? score)%float = true.
Proof.
  unfold getMatchScoreColor.
  destruct (0.8 <=? score)%float; [tauto |].
  destruct (0.6 <=? score)%float; split; discriminate.
Qed.

Lemma color_orange (score : float) :
  getMatchScoreColor score = "orange"
  <-> (0.6 <=? score)%float = true /\ (score <? 0.8)%float = true.
Proof.
  unfold getMatchScoreColor.
  destruct (0.8 <=? score)%float eqn:H8.
  - split; [discriminate |]. intros [_ H]. apply ltb_leb_false in H. congruence.
  - destruct (0.6 <=? score)%float eqn:H6.
    + split; [intros _ | reflexivity]. split; [reflexivity |].
      rewrite ltb_negb_leb, H8; [reflexivity | | reflexivity].
      exact (leb_not_nan_r _ _ H6).
    + split; [discriminate |]. intros [H _]. discriminate H.
Qed.

Lemma color_red (score : float) :
  getMatchScoreColor score = "red"
  <-> (score <? 0.6)%float = true \/ PrimFloat.is_nan score = true.
Proof.
  unfold getMatchScoreColor.
  destruct (0.8 <=? score)%float eqn:H8.
  - split; [discriminate |]. intros [H | H].
    + apply ltb_leb_false in H.
      assert (E : (0.6 <=? score)%float = true)
        by (apply (leb_trans _ 0.8%float); [reflexivity | exact H8]).
      congruence.
    + rewrite (leb_not_nan_r _ _ H8) in H. discriminate H.
  - destruct (0.6 <=? score)%float eqn:H6.
    + split; [discriminate |]. intros [H | H].
      * apply ltb_leb_false in H. congruence.
      * rewrite (leb_not_nan_r _ _ H6) in H. discriminate H.
    + split; [intros _ | reflexivity].
      destruct (PrimFloat.is_nan score) eqn:N; [right; reflexivity | left].
      rewrite ltb_negb_leb, H6; [reflexivity | exact N | reflexivity].
Qed.

(** C4 (as amended).  The match badge reads [Math.round(match_score * 100)]
    followed by "% match" and takes its colour from the score alone: green
    iff the score is at least 0.8, orange iff it is at least 0.6 and below
    0.8, and red iff it is below 0.6 or is NaN (so, for a score that is a
    number, iff it is below 0.6); the progress bar shows
    [(available_count / total_ingredients) * 100] in the same colour. *)
Theorem match_display (s : Suggestion) :
  let c := RecipeSuggestionCard s in
  let score := match_score s in
  badge_children (match_badge c) = [CNum (Math_round (score * 100)); CText "% match"]
  /\ colorPalette (match_badge c) = getMatchScoreColor score
  /\ (getMatchScoreColor score = "green" <-> (0.8 <=? score)%float = true)
  /\ (getMatchScoreColor score = "orange"
      <-> (0.6 <=? score)%float = true /\ (score <? 0.8)%float = true)
  /\ (getMatchScoreColor score = "red"
      <-> (score <? 0.6)%float = true \/ PrimFloat.is_nan score = true)
  /\ (PrimFloat.is_nan score = false ->
      (getMatchScoreColor score = "red" <-> (score <? 0.6)%float = true))
  /\ progress_value (progress c) = (available_count s / total_ingredients s * 100)%float
  /\ progress_colorPalette (progress c) = getMatchScoreColor score.
Proof.
  cbv zeta.
  split; [reflexivity |]. split; [reflexivity |].
  split; [apply color_green |]. split; [apply color_orange |].
  split; [apply color_red |].
  split; [| split; reflexivity].
  intros N. rewrite color_red, N. split; [intros [H | H]; [exact H | discriminate H] | auto].
Qed.

(** C4 as stated fails: a score that is NaN gets the red badge although
    it is not below 0.6. *)
Lemma match_display_red_counterexample :
  ~ (colorPalette (match_badge (RecipeSuggestionCard Samples.unscored)) = "red"
     <-> (match_score Samples.unscored <? 0.6)%float = true).
Proof.
  intros [H _]. specialize (H eq_refl). vm_compute in H. discriminate H.
Qed.

End MatchDisplay.

(** ** The search parameters of the suggestions route *)

Section SuggestionsSearch.
Import Js Client Suggestions.

(** A number field with inclusive bounds and a default: the result lies
    within the bounds; it is the value found when that is a number within
    the bounds, and the default otherwise. *)
Lemma bounded_field (lo hi d : float) (v : option Val) :
  PrimFloat.is_nan lo = false -> PrimFloat.is_nan hi = false ->
  (lo <=? d)%float = true -> (d <=? hi)%float = true ->
  let r := Zod.catch d (Zod.max hi (Zod.min lo (Zod.number v))) in
  ((lo <=? r)%float = true /\ (r <=? hi)%float = true)
  /\ (forall x, v = Some (VNum x) -> (lo <=? x)%float = true -> (x <=? hi)%float = true ->
                r = x)
  /\ ((forall x, ~ (v = Some (VNum x) /\ (lo <=? x)%float = true /\ (x <=? hi)%float = true))
      -> r = d).
Proof.
  intros Nlo Nhi Hlo Hhi. cbv zeta.
  destruct (Zod.number v) as [x |] eqn:Hnum.
  - assert (Hv : v = Some (VNum x) /\ PrimFloat.is_nan x = false).
    { destruct v as [[| | y | |] |]; simpl in Hnum; try discriminate Hnum.
      destruct (PrimFloat.is_nan y) eqn:N; [discriminate Hnum |].
      injection Hnum as ->. split; [reflexivity | exact N]. }
    destruct Hv as [-> Nx]. simpl.
    destruct (x <? lo)%float eqn:Llo; simpl.
    + split; [split; assumption |]. split.
      * intros y [= <-] Hy _. apply ltb_leb_false in Llo. congruence.
      * intros _. reflexivity.
    + rewrite ltb_negb_leb in Llo by assumption.
      apply negb_false_iff in Llo.
      destruct (hi <? x)%float eqn:Lhi; simpl.
      * split; [split; assumption |]. split.
        -- intros y [= <-] _ Hy. apply ltb_leb_false in Lhi. congruence.
        -- intros _. reflexivity.
      * rewrite ltb_negb_leb in Lhi by assumption.
        apply negb_false_iff in Lhi.
        split; [split; assumption |]. split.
        -- intros y [= <-] _ _. reflexivity.
        -- intros H. exfalso. apply (H x). auto.
  - simpl. split; [split; assumption |]. split.
    + intros x -> Hx _. simpl in Hnum.
      rewrite (leb_not_nan_r _ _ Hx) in Hnum. discriminate Hnum.
    + intros _. reflexivity.
Qed.

(** C5.  Whatever the URL search object holds, the validated
    [min_match_score] lies in [0, 1] and the validated [limit] in
    [1, 50]: a value that is a number within its bounds is kept, anything
    else (missing, not a number, out of range) is replaced by 0.3,
    respectively 10; and the call to [getRecipeSuggestions] made by
    [SuggestionsContent] passes exactly the validated values. *)
Theorem suggestions_search_bounds (url : gmap string Val) :
  let s := validateSearch url in
  ((0 <=? min_match_score s)%float = true /\ (min_match_score s <=? 1)%float = true)
  /\ ((1 <=? limit s)%float = true /\ (limit s <=? 50)%float = true)
  /\ queryFn (SuggestionsContent_query url)
     = getRecipeSuggestions (min_match_score s) (limit s)
  /\ (forall x, url !! "min_match_score" = Some (VNum x) ->
                (0 <=? x)%float = true -> (x <=? 1)%float = true ->
                min_match_score s = x)
  /\ ((forall x, ~ (url !! "min_match_score" = Some (VNum x)
                    /\ (0 <=? x)%float = true /\ (x <=? 1)%float = true))
      -> min_match_score s = 0.3%float)
  /\ (forall x, url !! "limit" = Some (VNum x) ->
                (1 <=? x)%float = true -> (x <=? 50)%float = true ->
                limit s = x)
  /\ ((forall x, ~ (url !! "limit" = Some (VNum x)
                    /\ (1 <=? x)%float = true /\ (x <=? 50)%float = true))
      -> limit s = 10%float).
Proof.
  cbv zeta.
  destruct (bounded_field 0 1 0.3 (url !! "min_match_score"))
    as (Hm1 & Hm2 & Hm3); try reflexivity.
  destruct (bounded_field 1 50 10 (url !! "limit"))
    as (Hl1 & Hl2 & Hl3); try reflexivity.
  split; [exact Hm1 |]. split; [exact Hl1 |]. split; [reflexivity |].
  split; [exact Hm2 |]. split; [exact Hm3 |]. split; [exact Hl2 | exact Hl3].
Qed.

End SuggestionsSearch.

(** ** [formatTime] *)

Section FormatTime.
Import Js.

Lemma last_char_append (s : string) (c : ascii) :
  last_char (s ++ String c EmptyString) = Some c.
Proof.
  induction s as [| a s IH]; simpl; [reflexivity |].
  destruct (s ++ String c EmptyString) eqn:E; [| exact IH].
  destruct s; discriminate E.
Qed.

Lemma append_assoc (s t u : string) : (s ++ t) ++ u = s ++ (t ++ u).
Proof.
  induction s as [| a s IH]; [reflexivity |].
  change (String a ((s ++ t) ++ u) = String a (s ++ (t ++ u))).
  f_equal. exact IH.
Qed.

(** A text that ends in "m" or in "h" is not the placeholder "N/A". *)
Lemma minutes_text_not_NA (s : string) : s ++ "m" <> "N/A".
Proof.
  intros E. apply (f_equal last_char) in E.
  rewrite last_char_append in E. discriminate E.
Qed.

Lemma hours_text_not_NA (s : string) : s ++ "h" <> "N/A".
Proof.
  intros E. apply (f_equal last_char) in E.
  rewrite last_char_append in E. discriminate E.
Qed.

Lemma hours_minutes_text_not_NA (s t : string) : s ++ "h " ++ t ++ "m" <> "N/A".
Proof.
  replace (s ++ "h " ++ t ++ "m") with ((s ++ "h " ++ t) ++ "m").
  - apply minutes_text_not_NA.
  - rewrite !append_assoc. reflexivity.
Qed.

(** The three copies differ only in the value returned for a falsy
    argument. *)
Lemma formatTime_copies (v : OptInt) :
  RecipeDetail.formatTime v = Suggestions.formatTime v
  /\ Recipes.formatTime v
     = match RecipeDetail.formatTime v with Some s => s | None => "N/A" end.
Proof.
  split; [reflexivity |].
  destruct v as [| | m]; simpl; try reflexivity.
  destruct (m =? 0); simpl; [reflexivity |].
  destruct (m <? 60); [reflexivity |].
  destruct (0 <? Z.rem m 60); reflexivity.
Qed.

(** C3, as amended.  For every safe integer [m >= 1], that is
    [1 <= m < 2^53], with [h = floor (m / 60)] and [r = m mod 60]:
    [formatTime m] is "{m}m" when [m < 60], "{h}h {r}m" when [m >= 60] and
    [r > 0], and "{h}h" when [m >= 60] and [r = 0]; the copies of the
    recipes list, the recipe page and the suggestion card return the same
    text. *)
Theorem formatTime_spec (m : Z) :
  1 <= m -> m < 2 ^ 53 ->
  let h := m / 60 in
  let r := m mod 60 in
  let text :=
    if m <? 60 then toString m ++ "m"
    else if 0 <? r then toString h ++ "h " ++ toString r ++ "m"
    else toString h ++ "h" in
  (m < 60 -> text = toString m ++ "m")
  /\ (60 <= m -> 0 < r -> text = toString h ++ "h " ++ toString r ++ "m")
  /\ (60 <= m -> r = 0 -> text = toString h ++ "h")
  /\ Recipes.formatTime (INum m) = text
  /\ RecipeDetail.formatTime (INum m) = Some text
  /\ Suggestions.formatTime (INum m) = Some text.
Proof.
  intros Hm _. cbv zeta.
  assert (Hrem : Z.rem m 60 = m mod 60) by (apply Z.rem_mod_nonneg; lia).
  assert (H0 : (m =? 0) = false) by (apply Z.eqb_neq; lia).
  split; [| split; [| split]].
  - intros H. apply Z.ltb_lt in H. rewrite H. reflexivity.
  - intros H Hr. apply Z.ltb_ge in H. apply Z.ltb_lt in Hr. rewrite H, Hr. reflexivity.
  - intros H Hr. apply Z.ltb_ge in H. rewrite H, Hr. reflexivity.
  - unfold Recipes.formatTime, RecipeDetail.formatTime, Suggestions.formatTime, truthy.
    rewrite H0, Hrem. simpl negb. cbv iota.
    destruct (m <? 60); [auto |].
    destruct (0 <? m mod 60); auto.
Qed.

Lemma formatTime_spec_witness :
  1 <= 135 /\ 135 < 2 ^ 53
  /\ Recipes.formatTime (INum 135) = "2h 15m"
  /\ RecipeDetail.formatTime (INum 135) = Some "2h 15m"
  /\ Suggestions.formatTime (INum 135) = Some "2h 15m".
Proof.
  split; [lia |]. split; [lia |].
  pose proof (formatTime_spec 135 ltac:(lia) ltac:(lia)) as H. cbv zeta in H.
  destruct H as (_ & _ & _ & H1 & H2 & H3).
  split; [exact H1 |]. split; [exact H2 | exact H3].
Defined.

(** Beyond the safe integers the quotient is rounded.  The integer
    [60 * 2^52 + 32] is a number (reading it changes nothing), its
    quotient by 60 is [2^52] and its remainder 32, but the division of the
    code gives [2^52 + 1]: the text is "4503599627370497h 32m", not
    "{h}h {r}m". *)
Lemma formatTime_spec_counterexample :
  let m := 60 * 2 ^ 52 + 32 in
  let h := m / 60 in
  let r := m mod 60 in
  1 <= m /\ 60 <= m /\ 0 < r
  /\ truncate (Binary64.Number m) = m
  /\ h = 4503599627370496 /\ r = 32
  /\ Binary64.formatTime (INum m) = Some "4503599627370497h 32m"
  /\ Binary64.formatTime (INum m) <> Some (toString h ++ "h " ++ toString r ++ "m").
Proof.
  cbv zeta.
  split; [lia |]. split; [lia |]. split; [reflexivity |].
  split; [vm_compute; reflexivity |].
  split; [reflexivity |]. split; [reflexivity |].
  split; [vm_compute; reflexivity |].
  vm_compute. discriminate.
Qed.

(** On the durations of up to a week (10080 minutes) the computation in
    binary64 gives the text computed on integers, one duration after the
    other. *)
Lemma agree_spec (count : nat) (lo m : Z) :
  Binary64.agree count lo = true -> lo <= m < lo + Z.of_nat count ->
  Binary64.formatTime (INum m) = RecipeDetail.formatTime (INum m).
Proof.
  revert lo. induction count as [| count IH]; intros lo H Hm; [lia |].
  cbn [Binary64.agree] in H. apply andb_true_iff in H. destruct H as [H1 H2].
  destruct (Z.eq_dec m lo) as [-> | Hne].
  - destruct (Binary64.formatTime (INum lo)) as [s |],
      (RecipeDetail.formatTime (INum lo)) as [t |]; try discriminate H1.
    + apply String.eqb_eq in H1. congruence.
    + reflexivity.
  - apply (IH (lo + 1)); [exact H2 | lia].
Qed.

Lemma formatTime_binary64 (m : Z) :
  0 <= m <= 10080 ->
  Binary64.formatTime (INum m) = RecipeDetail.formatTime (INum m).
Proof.
  intros Hm. apply (agree_spec (Z.to_nat 10081) 0); [vm_compute; reflexivity |].
  rewrite Z2Nat.id; lia.
Qed.

(** [formatTime] returns its absent value exactly when the argument is
    falsy ([0], [null] or [undefined]): "N/A" in the recipes list, [null]
    on the recipe page and in the suggestion card; a time of zero minutes
    is not turned into "0m". *)
Lemma formatTime_absent (v : OptInt) :
  (truthy v = false <-> v = INum 0 \/ v = INull \/ v = IUndefined)
  /\ (Recipes.formatTime v = "N/A" <-> truthy v = false)
  /\ (RecipeDetail.formatTime v = None <-> truthy v = false)
  /\ (Suggestions.formatTime v = None <-> truthy v = false)
  /\ Recipes.formatTime (INum 0) <> "0m"
  /\ RecipeDetail.formatTime (INum 0) <> Some "0m"
  /\ Suggestions.formatTime (INum 0) <> Some "0m".
Proof.
  assert (Hd : RecipeDetail.formatTime v = None <-> truthy v = false).
  { destruct v as [| | m]; simpl; try tauto.
    destruct (m =? 0); simpl; [tauto |].
    destruct (m <? 60); [split; discriminate |].
    destruct (0 <? Z.rem m 60); split; discriminate. }
  split; [| split; [| split; [exact Hd | split; [exact Hd |]]]].
  - destruct v as [| | m]; simpl.
    + split; auto.
    + split; auto.
    + rewrite negb_false_iff, Z.eqb_eq. split.
      * intros ->. auto.
      * intros [[= ->] | [H | H]]; [reflexivity | discriminate H | discriminate H].
  - rewrite <- Hd. destruct (formatTime_copies v) as [_ ->].
    destruct v as [| | m]; simpl; try tauto.
    destruct (m =? 0); simpl; [tauto |].
    destruct (m <? 60).
    + split; [intros E; apply minutes_text_not_NA in E; contradiction | discriminate].
    + destruct (0 <? Z.rem m 60).
      * split; [intros E; apply hours_minutes_text_not_NA in E; contradiction
               | discriminate].
      * split; [intros E; apply hours_text_not_NA in E; contradiction | discriminate].
  - repeat split; discriminate.
Qed.

(** C10.  [formatTime] returns its absent value exactly when the argument
    is falsy ([0], [null] or [undefined]), and the recipes list shows
    "N/A" in the cell of a zero time.  On the recipe page and in the
    suggestion card the line is guarded by [minutes && (...)], which for 0
    is the number 0 itself: the lines "Prep:" and "Cook:" are left out,
    [formatTime] is not called, and the bare number 0 is rendered in their
    place, where [null] and [undefined] render nothing. *)
Theorem zero_time_display (v : OptInt) :
  let zero :=
    {| Recipes.id := "r1"; Recipes.name := "Pasta";
       Recipes.prep_time_minutes := INum 0; Recipes.cook_time_minutes := INum 0 |} in
  (Recipes.formatTime v = "N/A" <-> v = INum 0 \/ v = INull \/ v = IUndefined)
  /\ (RecipeDetail.formatTime v = None <-> v = INum 0 \/ v = INull \/ v = IUndefined)
  /\ (Suggestions.formatTime v = None <-> v = INum 0 \/ v = INull \/ v = IUndefined)
  /\ Recipes.prep_cell (Recipes.row zero) = "N/A"
  /\ Recipes.cook_cell (Recipes.row zero) = "N/A"
  /\ RecipeDetail.prep_time (INum 0) = [Jsx.CInt 0]
  /\ RecipeDetail.cook_time (INum 0) = [Jsx.CInt 0]
  /\ Suggestions.cook_time (Suggestions.RecipeSuggestionCard Samples.unscored)
     = [Jsx.CInt 0]
  /\ RecipeDetail.prep_time INull = [] /\ RecipeDetail.prep_time IUndefined = []
  /\ RecipeDetail.cook_time INull = [] /\ RecipeDetail.cook_time IUndefined = [].
Proof.
  cbv zeta. destruct (formatTime_absent v) as (F & L & D & C & _).
  split; [rewrite L; exact F |]. split; [rewrite D; exact F |].
  split; [rewrite C; exact F |]. repeat split.
Qed.

End FormatTime.

(** ** The suggestions list and its cards *)

Section SuggestionsView.
Import Js Jsx ReactQuery Client Suggestions.

(** C1.  Once a response is there, the cards on screen are the elements of
    its [data] array, one card per element, in the order and number
    received; the empty-state placeholder is shown exactly when the array
    is empty. *)
Theorem suggestions_view (d : Page Suggestion) (placeholder : bool) :
  let view := SuggestionsContent (mkResult (Some d) false placeholder) in
  let card := fun s => (recipe_id (recipe s), RecipeSuggestionCard s) in
  cards_of view = map card (page_data d)
  /\ length (cards_of view) = length (page_data d)
  /\ (forall (i : nat), cards_of view !! i = card <$> page_data d !! i)
  /\ (view = EmptyState <-> page_data d = [])
  /\ (view = Cards (map card (page_data d)) <-> page_data d <> []).
Proof.
  cbv zeta. unfold SuggestionsContent. simpl data. simpl isLoading. cbv iota.
  destruct (page_data d) as [| s l] eqn:E.
  - simpl. repeat split; try reflexivity; try discriminate; try congruence.
  - change (length (s :: l) =? 0)%nat with false. cbv iota. unfold cards_of.
    split; [reflexivity |]. split; [apply length_map |].
    split; [intros i; apply list_lookup_fmap |].
    split; split; try discriminate; reflexivity.
Qed.

(** C2.  The ingredients heading of a card shows [available_count] and
    [total_ingredients] as received, and the "Available:" and "Missing:"
    groups hold one badge per element of [available_ingredients] and of
    [missing_ingredients], green and red respectively, in the order
    received and keyed by the element's id. *)
Theorem card_ingredients (s : Suggestion) :
  let c := RecipeSuggestionCard s in
  let available := default [] (available_group c) in
  let missing := default [] (missing_group c) in
  ingredients_heading c
  = [CText "Ingredients ("; CNum (available_count s); CText "/";
     CNum (total_ingredients s); CText " available)"]
  /\ available = map (ingredient_badge "green") (available_ingredients s)
  /\ missing = map (ingredient_badge "red") (missing_ingredients s)
  /\ map badge_key available = map (fun ing => Some (id ing)) (available_ingredients s)
  /\ map badge_key missing = map (fun ing => Some (id ing)) (missing_ingredients s)
  /\ Forall (fun b => colorPalette b = "green") available
  /\ Forall (fun b => colorPalette b = "red") missing
  /\ length available = length (available_ingredients s)
  /\ length missing = length (missing_ingredients s).
Proof.
  cbv zeta.
  assert (G : forall palette l,
             default [] (group palette l) = map (ingredient_badge palette) l).
  { intros palette [| x l]; reflexivity. }
  simpl. rewrite !G.
  split; [reflexivity |]. split; [reflexivity |]. split; [reflexivity |].
  split; [rewrite map_map; reflexivity |]. split; [rewrite map_map; reflexivity |].
  split; [apply Forall_map, Forall_true; reflexivity |].
  split; [apply Forall_map, Forall_true; reflexivity |].
  split; apply length_map.
Qed.

End SuggestionsView.

(** ** Paginated tables *)

Section Pagination.
Import Js ReactQuery Client.

Lemma slice0_10 {A} (l : list A) : slice0 l 10 = take 10 l.
Proof. reflexivity. Qed.

Lemma length_take_10 {A} (l : list A) : (length (take 10 l) <= 10)%nat.
Proof. rewrite length_take. lia. Qed.

Lemma page_field (url : gmap string Val) (p : float) :
  url !! "page" = Some (VNum p) -> PrimFloat.is_nan p = false ->
  Zod.catch 1%float (Zod.number (url !! "page")) = p.
Proof. intros -> N. simpl. rewrite N. reflexivity. Qed.

Lemma search_field_empty (url : gmap string Val) :
  url !! "search" = Some (VStr "") ->
  or_undefined (Zod.catch "" (Zod.string (url !! "search"))) = None.
Proof. intros ->. reflexivity. Qed.

Lemma search_field_missing (url : gmap string Val) :
  url !! "search" = None ->
  or_undefined (Zod.catch "" (Zod.string (url !! "search"))) = None.
Proof. intros ->. reflexivity. Qed.

Lemma search_field_term (url : gmap string Val) (t : string) :
  url !! "search" = Some (VStr t) -> t <> "" ->
  or_undefined (Zod.catch "" (Zod.string (url !! "search"))) = Some t.
Proof.
  intros -> Ht. simpl. unfold or_undefined.
  destruct (String.eqb_spec t ""); [contradiction | reflexivity].
Qed.

Section PantryRows.
Variable Date_parse : string -> option Z.
Variable clock : nat -> Z.

Lemma pantry_rows_keys (l : list Pantry.UserIngredientPublic) (n : nat) :
  map Pantry.row_key (fst (Pantry.rows Date_parse clock l n)) = map Pantry.id l.
Proof.
  revert n. induction l as [| u l IH]; intros n; [reflexivity |].
  simpl. unfold Pantry.bind at 1.
  destruct (Pantry.row Date_parse clock u n) as [r n1] eqn:Er.
  unfold Pantry.bind at 1. specialize (IH n1).
  destruct (Pantry.rows Date_parse clock l n1) as [rs n2].
  simpl in *. f_equal; [| exact IH].
  unfold Pantry.row, Pantry.bind in Er.
  destruct (Pantry.expiration Date_parse clock u n) as [cell n'].
  injection Er as <- _. reflexivity.
Qed.

Lemma pantry_table_rows (q : UseQueryResult (Page Pantry.UserIngredientPublic))
    (n : nat) :
  map Pantry.row_key (Pantry.rows_of (fst (Pantry.PantryTable Date_parse clock q n)))
  = if isLoading q then []
    else map Pantry.id (match data q with
                        | Some d => take 10 (page_data d)
                        | None => []
                        end).
Proof.
  unfold Pantry.PantryTable. destruct (isLoading q); [reflexivity |].
  destruct (data q) as [d |]; [| reflexivity].
  unfold Pantry.PER_PAGE. rewrite slice0_10.
  destruct (take 10 (page_data d)) as [| u l] eqn:E; [reflexivity |].
  change (length (u :: l) =? 0)%nat with false. cbv iota.
  unfold Pantry.bind.
  pose proof (pantry_rows_keys (u :: l) n) as H.
  destruct (Pantry.rows Date_parse clock (u :: l) n) as [rs n']. exact H.
Qed.

End PantryRows.

(** C6.  With page number [p] in the URL, the list queries of the
    ingredients, recipes and pantry routes request [skip = (p - 1) * 10]
    and [limit = 10]; an empty (or missing) search string is sent as
    [undefined] and any other one as it is; and each table shows the
    first ten items of the response at most. *)
Theorem paginated_requests (url : gmap string Val) (p : float) :
  url !! "page" = Some (VNum p) -> PrimFloat.is_nan p = false ->
  let sent_i := or_undefined (Ingredients.search (Ingredients.validateSearch url)) in
  let sent_r := or_undefined (Recipes.search (Recipes.validateSearch url)) in
  (queryFn (Ingredients.IngredientsTable_query url)
     = readIngredients ((p - 1) * 10)%float 10%float sent_i
   /\ queryFn (Recipes.RecipesTable_query url)
     = readRecipes ((p - 1) * 10)%float 10%float sent_r
   /\ queryFn (Pantry.PantryTable_query url)
     = readUserIngredients ((p - 1) * 10)%float 10%float
         (Pantry.expiring_soon (Pantry.validateSearch url)) 7%float)
  /\ (url !! "search" = Some (VStr "") -> sent_i = None /\ sent_r = None)
  /\ (url !! "search" = None -> sent_i = None /\ sent_r = None)
  /\ (forall t, url !! "search" = Some (VStr t) -> t <> "" ->
                sent_i = Some t /\ sent_r = Some t)
  /\ (forall q,
        (length (Ingredients.rows_of (Ingredients.IngredientsTable q)) <= 10)%nat
        /\ Ingredients.rows_of (Ingredients.IngredientsTable q)
           = if isLoading q then []
             else map Ingredients.row
                    (match data q with Some d => take 10 (page_data d) | None => [] end))
  /\ (forall q,
        (length (Recipes.rows_of (Recipes.RecipesTable q)) <= 10)%nat
        /\ Recipes.rows_of (Recipes.RecipesTable q)
           = if isLoading q then []
             else map Recipes.row
                    (match data q with Some d => take 10 (page_data d) | None => [] end))
  /\ (forall Date_parse clock q n,
        let rows := Pantry.rows_of (fst (Pantry.PantryTable Date_parse clock q n)) in
        (length rows <= 10)%nat
        /\ map Pantry.row_key rows
           = if isLoading q then []
             else map Pantry.id
                    (match data q with Some d => take 10 (page_data d) | None => [] end)).
Proof.
  intros Hp Np. cbv zeta.
  split; [| split; [| split; [| split; [| split; [| split]]]]].
  - unfold Ingredients.IngredientsTable_query, Recipes.RecipesTable_query,
      Pantry.PantryTable_query, Ingredients.validateSearch, Recipes.validateSearch,
      Pantry.validateSearch.
    simpl. rewrite (page_field url p Hp Np). repeat split; reflexivity.
  - intros H. split; apply search_field_empty; exact H.
  - intros H. split; apply search_field_missing; exact H.
  - intros t H Ht. split; apply search_field_term; assumption.
  - intros q.
    assert (E : Ingredients.rows_of (Ingredients.IngredientsTable q)
                = if isLoading q then []
                  else map Ingredients.row
                         (match data q with
                          | Some d => take 10 (page_data d) | None => [] end)).
    { unfold Ingredients.IngredientsTable. destruct (isLoading q); [reflexivity |].
      destruct (data q) as [d |]; [| reflexivity].
      unfold Ingredients.PER_PAGE. rewrite slice0_10.
      destruct (take 10 (page_data d)); reflexivity. }
    split; [| exact E]. rewrite E.
    destruct (isLoading q); [simpl; lia |]. rewrite length_map.
    destruct (data q); [apply length_take_10 | simpl; lia].
  - intros q.
    assert (E : Recipes.rows_of (Recipes.RecipesTable q)
                = if isLoading q then []
                  else map Recipes.row
                         (match data q with
                          | Some d => take 10 (page_data d) | None => [] end)).
    { unfold Recipes.RecipesTable. destruct (isLoading q); [reflexivity |].
      destruct (data q) as [d |]; [| reflexivity].
      unfold Recipes.PER_PAGE. rewrite slice0_10.
      destruct (take 10 (page_data d)); reflexivity. }
    split; [| exact E]. rewrite E.
    destruct (isLoading q); [simpl; lia |]. rewrite length_map.
    destruct (data q); [apply length_take_10 | simpl; lia].
  - intros Date_parse clock q n.
    pose proof (pantry_table_rows Date_parse clock q n) as E.
    split; [| exact E].
    rewrite <- (length_map Pantry.row_key), E.
    destruct (isLoading q); [simpl; lia |]. rewrite length_map.
    destruct (data q); [apply length_take_10 | simpl; lia].
Qed.

End Pagination.

Lemma paginated_requests_witness :
  Samples.page_three !! "page" = Some (Js.VNum 3)
  /\ PrimFloat.is_nan 3 = false
  /\ Client.queryFn (Ingredients.IngredientsTable_query Samples.page_three)
     = Client.readIngredients 20 10 None.
Proof.
  assert (Hp : Samples.page_three !! "page" = Some (Js.VNum 3))
    by (vm_compute; reflexivity).
  split; [exact Hp |]. split; [reflexivity |].
  destruct (paginated_requests Samples.page_three 3 Hp eq_refl) as [[H _] _].
  rewrite H. vm_compute. reflexivity.
Defined.

(** ** Navigation: the next URL search object *)

Section Navigation.
Import Js.

Lemma set_two_fields (k1 k2 : string) (v1 v2 : Val) (prev : gmap string Val) :
  k1 <> k2 ->
  let next := <[k2 := v2]> (<[k1 := v1]> prev) in
  next !! k2 = Some v2
  /\ next !! k1 = Some v1
  /\ (forall k, k <> k2 -> k <> k1 -> next !! k = prev !! k).
Proof.
  intros Hne. cbv zeta. split; [apply lookup_insert_eq |]. split.
  - rewrite lookup_insert_ne by congruence. apply lookup_insert_eq.
  - intros k H2 H1. rewrite !lookup_insert_ne by congruence. reflexivity.
Qed.

Lemma set_one_field (k1 : string) (v1 : Val) (prev : gmap string Val) :
  let next := <[k1 := v1]> prev in
  next !! k1 = Some v1 /\ (forall k, k <> k1 -> next !! k = prev !! k).
Proof.
  cbv zeta. split; [apply lookup_insert_eq |].
  intros k H. rewrite lookup_insert_ne by congruence. reflexivity.
Qed.

(** C9.  Submitting a search term on the ingredients or recipes page, or
    toggling the expiring-soon switch on the pantry page, sets [page] to 1
    and the submitted parameter to its new value, and leaves every other
    parameter of the URL search object as it was; choosing a page changes
    the [page] parameter only. *)
Theorem navigation_frame (newSearch : string) (checked : bool) (p : float)
    (prev : gmap string Val) :
  (Ingredients.handleSearch newSearch prev !! "page" = Some (VNum 1)
   /\ Ingredients.handleSearch newSearch prev !! "search" = Some (VStr newSearch)
   /\ (forall k, k <> "page" -> k <> "search" ->
                 Ingredients.handleSearch newSearch prev !! k = prev !! k))
  /\ (Recipes.handleSearch newSearch prev !! "page" = Some (VNum 1)
      /\ Recipes.handleSearch newSearch prev !! "search" = Some (VStr newSearch)
      /\ (forall k, k <> "page" -> k <> "search" ->
                    Recipes.handleSearch newSearch prev !! k = prev !! k))
  /\ (Pantry.toggleExpiringSoon checked prev !! "page" = Some (VNum 1)
      /\ Pantry.toggleExpiringSoon checked prev !! "expiring_soon" = Some (VBool checked)
      /\ (forall k, k <> "page" -> k <> "expiring_soon" ->
                    Pantry.toggleExpiringSoon checked prev !! k = prev !! k))
  /\ (Ingredients.setPage p prev !! "page" = Some (VNum p)
      /\ (forall k, k <> "page" -> Ingredients.setPage p prev !! k = prev !! k))
  /\ (Recipes.setPage p prev !! "page" = Some (VNum p)
      /\ (forall k, k <> "page" -> Recipes.setPage p prev !! k = prev !! k))
  /\ (Pantry.setPage p prev !! "page" = Some (VNum p)
      /\ (forall k, k <> "page" -> Pantry.setPage p prev !! k = prev !! k)).
Proof.
  split; [apply (set_two_fields "search" "page"); discriminate |].
  split; [apply (set_two_fields "search" "page"); discriminate |].
  split; [apply (set_two_fields "expiring_soon" "page"); discriminate |].
  split; [apply (set_one_field "page") |].
  split; apply (set_one_field "page").
Qed.

End Navigation.

(** ** Mutations and the shared query cache *)

Section MutationEffects.
Import ReactQuery Mutations.

Lemma invalidate_queryKey (k : list string) (q : Query) :
  queryKey (invalidate k q) = queryKey q.
Proof. unfold invalidate. destruct (partialMatchKey (queryKey q) k); reflexivity. Qed.

Lemma invalidate_stays (k : list string) (q : Query) :
  isInvalidated q = true -> isInvalidated (invalidate k q) = true.
Proof.
  unfold invalidate. destruct (partialMatchKey (queryKey q) k); [reflexivity | tauto].
Qed.

Lemma invalidate_marks (k : list string) (q : Query) :
  partialMatchKey (queryKey q) k = true -> isInvalidated (invalidate k q) = true.
Proof. unfold invalidate. intros ->. reflexivity. Qed.

Lemma invalidate_all_queryKey (ks : list (list string)) (q : Query) :
  queryKey (invalidate_all ks q) = queryKey q.
Proof.
  revert q. induction ks as [| k ks IH]; intros q; [reflexivity |].
  simpl. unfold invalidate_all in IH. rewrite IH. apply invalidate_queryKey.
Qed.

Lemma invalidate_all_stays (ks : list (list string)) (q : Query) :
  isInvalidated q = true -> isInvalidated (invalidate_all ks q) = true.
Proof.
  revert q. induction ks as [| k ks IH]; intros q H; [exact H |].
  simpl. apply IH, invalidate_stays, H.
Qed.

Lemma invalidate_all_marks (ks : list (list string)) (q : Query) :
  existsb (partialMatchKey (queryKey q)) ks = true ->
  isInvalidated (invalidate_all ks q) = true.
Proof.
  revert q. induction ks as [| k ks IH]; intros q H; [discriminate H |].
  simpl in H. apply orb_true_iff in H. simpl. destruct H as [H | H].
  - apply invalidate_all_stays, invalidate_marks, H.
  - apply IH. rewrite invalidate_queryKey. exact H.
Qed.

(** Only [onSettled] touches the cache, and it invalidates with the keys
    of the mutation. *)
Lemma settle_cache (m : Mutation) (o : Outcome) (a : App) :
  cache (settle (options m) o a) = map (invalidate_all (keys m)) (cache a)
  /\ cache (onSuccess (options m) a) = cache a
  /\ (forall err, cache (onError (options m) err a) = cache a).
Proof.
  destruct m, o; simpl; rewrite ?map_map; repeat split; reflexivity.
Qed.

(** C7 (as amended).  Each of the seven mutations invalidates the cached
    queries under its query keys in [onSettled], that is after
    [onSuccess] or [onError] has run and whatever the outcome: every
    cached query whose key starts with one of them is marked stale, and
    no query is added or dropped.  On success one success toast is shown,
    [handleError] is not called, and the dialog is closed, except by the
    removal of a recipe ingredient, whose component has no dialog and
    leaves the open flag as it is.  On error [handleError] is called with
    the error, no toast is shown and the dialog is left as it is. *)
Theorem mutation_effects (m : Mutation) (o : Outcome) (a : App) :
  let a' := settle (options m) o a in
  a' = onSettled (options m)
         (match o with
          | Fulfilled => onSuccess (options m) a
          | Rejected err => onError (options m) err a
          end)
  /\ cache (match o with
            | Fulfilled => onSuccess (options m) a
            | Rejected err => onError (options m) err a
            end) = cache a
  /\ map queryKey (cache a') = map queryKey (cache a)
  /\ (forall (i : nat) q, cache a !! i = Some q -> matches m q = true ->
        exists q', cache a' !! i = Some q'
                   /\ queryKey q' = queryKey q /\ isInvalidated q' = true)
  /\ match o with
     | Fulfilled =>
         (exists msg, toasts a' = (toasts a ++ [msg])%list)
         /\ handledErrors a' = handledErrors a
         /\ isOpen a' = (if has_dialog m then false else isOpen a)
     | Rejected err =>
         handledErrors a' = (handledErrors a ++ [err])%list
         /\ toasts a' = toasts a
         /\ isOpen a' = isOpen a
     end.
Proof.
  cbv zeta. destruct (settle_cache m o a) as (Hc & Hs & He).
  split; [destruct o; reflexivity |].
  split; [destruct o; [exact Hs | apply He] |].
  split.
  { rewrite Hc, map_map. apply map_ext. intros q. apply invalidate_all_queryKey. }
  split.
  { intros i q Hi Hm. exists (invalidate_all (keys m) q).
    rewrite Hc, list_lookup_fmap, Hi. split; [reflexivity |].
    split; [apply invalidate_all_queryKey | apply invalidate_all_marks, Hm]. }
  destruct o as [| err]; destruct m; simpl; repeat split; eauto.
Qed.

(** C7 as stated fails for the removal of a recipe ingredient: it
    succeeds, shows its toast, and the dialog on screen stays open. *)
Lemma delete_mutation_counterexample :
  let a' := settle (options (DeleteRecipeIngredient "r1")) Fulfilled Samples.dialog_open in
  toasts a' = ["Ingredient removed from recipe successfully."]
  /\ Forall (fun q => isInvalidated q = true) (cache a')
  /\ ~ (isOpen a' = false).
Proof.
  cbv zeta. split; [reflexivity |]. split.
  - repeat constructor.
  - discriminate.
Qed.

(** The list queries of the three routes are among the invalidated ones. *)
Lemma route_queries_match (stale : bool) :
  (forall s, matches CreateIngredient
               (mkQuery (Client.queryKey (Ingredients.getIngredientsQueryOptions s)) stale)
             = true)
  /\ (forall s, matches CreateRecipe
                  (mkQuery (Client.queryKey (Recipes.getRecipesQueryOptions s)) stale)
                = true)
  /\ (forall s, matches AddPantryIngredient
                  (mkQuery (Client.queryKey (Pantry.getUserIngredientsQueryOptions s)) stale)
                = true).
Proof. repeat split. Qed.

End MutationEffects.

(** ** The expiration badges of a pantry row *)

Section ExpirationBadges.
Import Js Pantry.

Variable Date_parse : string -> option Z.
Variable clock : nat -> Z.

(** What the three clock readings of a cell decide, for a date that is
    present: the reading taken for the "Expired" badge, the one taken for
    the guard of the "Soon" badge, and the one taken by [isExpiringSoon]. *)
Lemma expiration_cell_eval (u : UserIngredientPublic) (d : string) (n : nat) :
  expiration_date u = Some d -> d <> "" ->
  fst (expiration Date_parse clock u n)
  = Expiration d
      (match Date_parse d with Some e => e <? clock n | None => false end)
      (match Date_parse d with
       | Some e =>
           negb (e <? clock (S n))
           && ((ceil_div (e - clock (S (S n))) 86400000 <=? 7)
               && (0 <=? ceil_div (e - clock (S (S n))) 86400000))
       | None => false
       end).
Proof.
  intros Hd Hne. unfold expiration. rewrite Hd.
  destruct (String.eqb_spec d "") as [E | _]; [contradiction |].
  unfold bind, isExpired, isExpiringSoon.
  destruct (String.eqb_spec d "") as [E | _]; [contradiction |].
  unfold bind, new_Date, ret. simpl.
  destruct (Date_parse d) as [e |]; [| reflexivity].
  destruct (e <? clock (S n)); reflexivity.
Qed.


End ExpirationBadges.



(** ** The components on sample data *)

Section Examples.
Import Js Jsx.

Example round_half_up : Math_round 2.5 = 3%float /\ Math_round (-2.5) = (-2)%float.
Proof. split; reflexivity. Qed.

Example round_product : Math_round (0.285 * 100) = 28%float.
Proof. reflexivity. Qed.

Example formatTime_examples :
  Recipes.formatTime (INum 45) = "45m"
  /\ Recipes.formatTime (INum 120) = "2h"
  /\ Recipes.formatTime (INum 135) = "2h 15m"
  /\ Recipes.formatTime (INum 0) = "N/A"
  /\ Suggestions.formatTime INull = None.
Proof. repeat split. Qed.

Example zero_minutes_in_card :
  Suggestions.cook_time (Suggestions.RecipeSuggestionCard Samples.unscored) = [CInt 0]
  /\ Suggestions.prep_time (Suggestions.RecipeSuggestionCard Samples.unscored)
     = [CText "Prep: "; CText "15m"].
Proof. split; reflexivity. Qed.

Example milk_expires_soon :
  fst (Pantry.expiration Samples.parse Samples.ticking Samples.milk 0%nat)
  = Pantry.Expiration "2025-01-10" false true.
Proof. reflexivity. Qed.

Example number_texts :
  Binary64.Number_toString (Binary64.Number 135) = "135"
  /\ Binary64.Number_toString (Binary64.Number (2 ^ 53 - 1)) = "9007199254740991"
  /\ Binary64.Number_toString (Binary64.Number (2 ^ 53 + 1)) = "9007199254740992"
  /\ Binary64.Number_toString (Binary64.Number (2 ^ 69)) = "590295810358705700000"
  /\ Binary64.Number_toString (Binary64.Number (10 ^ 21)) = "1e+21"
  /\ Binary64.Number_toString (Binary64.Number (2 ^ 70)) = "1.1805916207174113e+21".
Proof. vm_compute. repeat split. Qed.

Example formatTime_largest_safe :
  Binary64.formatTime (INum (2 ^ 53 - 1)) = Some "150119987579016h 31m"
  /\ RecipeDetail.formatTime (INum (2 ^ 53 - 1)) = Some "150119987579016h 31m"
  /\ Binary64.formatTime (INum (10 ^ 21)) = Some "16666666666666666000h 40m".
Proof. vm_compute. repeat split. Qed.

Example invalid_limit_replaced :
  Suggestions.validateSearch (<["limit" := VNum 500]> Samples.page_three)
  = Suggestions.mkSearch 0.3 10.
Proof. vm_compute. reflexivity. Qed.

End Examples.

(** * Further properties of the components *)

(** ** Reading back a printed integer *)

Section ParseInt.
Import Js JsText.

Lemma digits_string_of_uint (d : Decimal.uint) (acc : Z) :
  digits 10 acc (NilEmpty.string_of_uint d)
  = acc * 10 ^ Z.of_N (DecimalPos.Unsigned.usize d)
    + Z.of_N (DecimalPos.Unsigned.of_lu (Decimal.rev d)).
Proof.
  revert acc.
  induction d as [| d IH | d IH | d IH | d IH | d IH | d IH | d IH | d IH | d IH | d IH];
    intros acc;
    [ simpl; lia | .. ];
    unfold Decimal.rev; simpl Decimal.revapp;
    match goal with
    | |- context [Decimal.revapp d ?d'] =>
        rewrite (DecimalPos.Unsigned.of_lu_revapp d d')
    end;
    simpl NilEmpty.string_of_uint; simpl digits; rewrite IH;
    simpl DecimalPos.Unsigned.of_lu;
    simpl DecimalPos.Unsigned.usize; rewrite N2Z.inj_succ, Z.pow_succ_r by lia;
    rewrite N2Z.inj_add, N2Z.inj_mul, N2Z.inj_pow; simpl Z.of_N; lia.
Qed.

Lemma parseInt_string_of_uint (d : Decimal.uint) :
  d <> Decimal.Nil ->
  parseInt (NilEmpty.string_of_uint d) = Some (Z.of_uint d)
  /\ parseInt (String "-" (NilEmpty.string_of_uint d)) = Some (- Z.of_uint d).
Proof.
  intros Hd.
  assert (V : digits 10 0 (NilEmpty.string_of_uint d) = Z.of_uint d).
  { rewrite digits_string_of_uint. unfold Z.of_uint.
    rewrite DecimalPos.Unsigned.of_uint_alt. lia. }
  assert (P : parseInt (NilEmpty.string_of_uint d)
              = Some (1 * digits 10 0 (NilEmpty.string_of_uint d))
              /\ parseInt (String "-" (NilEmpty.string_of_uint d))
                 = Some (-1 * digits 10 0 (NilEmpty.string_of_uint d))).
  { destruct d as [| d | d | d | d | d | d | d | d | d | d]; [contradiction | ..];
      destruct d; split; reflexivity. }
  destruct P as [-> ->]. rewrite V. split; f_equal; lia.
Qed.

(** [Number.parseInt] reads back what [toString] prints. *)
Lemma parseInt_toString (n : Z) : parseInt (toString n) = Some n.
Proof.
  unfold toString.
  rewrite <- (DecimalZ.of_to n) at 2.
  destruct n as [| p | p]; [reflexivity | |];
    simpl Z.to_int; simpl Z.of_int; unfold NilZero.string_of_int, NilZero.string_of_uint;
    pose proof (DecimalPos.Unsigned.to_uint_nonnil p) as Hn;
    destruct (parseInt_string_of_uint (Pos.to_uint p) Hn) as [H1 H2];
    destruct (Pos.to_uint p) eqn:E; try contradiction; first [exact H1 | exact H2].
Qed.


Lemma toString_nonempty (n : Z) : toString n <> "".
Proof.
  intros H. apply (f_equal parseInt) in H.
  rewrite parseInt_toString in H. discriminate H.
Qed.

Lemma all_digits_string_of_uint (d : Decimal.uint) :
  all_digits (NilEmpty.string_of_uint d) = true.
Proof. induction d; simpl; auto. Qed.

(** A printed integer consists of digits exactly when it is not negative. *)
Lemma matches_digits_toString (n : Z) : matches_digits (toString n) = (0 <=? n).
Proof.
  unfold matches_digits.
  destruct (String.eqb_spec (toString n) "") as [E | _];
    [apply toString_nonempty in E; contradiction |].
  unfold toString. destruct n as [| p | p]; [reflexivity | | reflexivity].
  simpl Z.to_int. unfold NilZero.string_of_int, NilZero.string_of_uint.
  pose proof (all_digits_string_of_uint (Pos.to_uint p)) as H.
  destruct (Pos.to_uint p); simpl negb; simpl andb; exact H.
Qed.

(** The digits of a text that matches the pattern are read in radix 10 and
    give a number that is not negative. *)
Lemma digits_nonneg (s : string) (acc : Z) : 0 <= acc -> 0 <= digits 10 acc s.
Proof.
  revert acc. induction s as [| c s IH]; intros acc Hacc; simpl; [exact Hacc |].
  destruct (digit_of 10 c) as [d |] eqn:E; [| exact Hacc].
  apply IH. unfold digit_of in E.
  set (n := Z.of_N (N_of_ascii c)) in *.
  destruct ((48 <=? n) && (n <=? 57)) eqn:E1.
  - apply andb_true_iff in E1. destruct E1 as [H1 H2].
    apply Z.leb_le in H1. destruct (n - 48 <? 10); [| discriminate E].
    injection E as <-. lia.
  - destruct ((97 <=? n) && (n <=? 102)) eqn:E2.
    + apply andb_true_iff in E2. destruct E2 as [H1 H2].
      apply Z.leb_le in H1. destruct (n - 87 <? 10); [| discriminate E].
      injection E as <-. lia.
    + destruct ((65 <=? n) && (n <=? 70)) eqn:E3; [| discriminate E].
      apply andb_true_iff in E3. destruct E3 as [H1 H2].
      apply Z.leb_le in H1. destruct (n - 55 <? 10); [| discriminate E].
      injection E as <-. lia.
Qed.

Lemma parseInt_digits (s : string) :
  matches_digits s = true -> parseInt s = Some (digits 10 0 s).
Proof.
  unfold matches_digits. intros H. apply andb_true_iff in H. destruct H as [Hne Hd].
  destruct s as [| c s]; [discriminate Hne |].
  simpl in Hd. apply andb_true_iff in Hd. destruct Hd as [Hc Hs].
  assert (P : parseInt (String c s) = Some (1 * digits 10 0 (String c s))).
  { destruct c as [[] [] [] [] [] [] [] []]; try discriminate Hc;
      destruct s as [| [[] [] [] [] [] [] [] []] s]; try discriminate Hs; reflexivity. }
  rewrite P. f_equal. lia.
Qed.

Lemma parseInt_matches_digits (s : string) :
  matches_digits s = true -> exists n, parseInt s = Some n /\ 0 <= n.
Proof.
  intros H. exists (digits 10 0 s).
  split; [apply parseInt_digits; exact H | apply digits_nonneg; lia].
Qed.

(** A text of [k] digits denotes an integer below [10^k]. *)
Lemma digits_bound (s : string) (acc : Z) :
  all_digits s = true -> 0 <= acc ->
  digits 10 acc s < (acc + 1) * 10 ^ Z.of_nat (String.length s).
Proof.
  revert acc. induction s as [| c s IH]; intros acc Hd Hacc; [simpl; lia |].
  simpl in Hd. apply andb_true_iff in Hd. destruct Hd as [Hc Hs].
  apply andb_true_iff in Hc. destruct Hc as [H1 H2].
  apply N.leb_le in H1. apply N.leb_le in H2.
  assert (E : digit_of 10 c = Some (Z.of_N (N_of_ascii c) - 48)).
  { unfold digit_of.
    replace ((48 <=? Z.of_N (N_of_ascii c)) && (Z.of_N (N_of_ascii c) <=? 57))
      with true by (symmetry; apply andb_true_iff; split; apply Z.leb_le; lia).
    replace (Z.of_N (N_of_ascii c) - 48 <? 10) with true
      by (symmetry; apply Z.ltb_lt; lia).
    reflexivity. }
  simpl digits. rewrite E.
  specialize (IH (acc * 10 + (Z.of_N (N_of_ascii c) - 48)) Hs ltac:(lia)).
  change (String.length (String c s)) with (S (String.length s)).
  rewrite Nat2Z.inj_succ, Z.pow_succ_r by lia.
  assert (P : 0 < 10 ^ Z.of_nat (String.length s)) by (apply Z.pow_pos_nonneg; lia).
  nia.
Qed.

End ParseInt.

(** ** The recipe and ingredient forms *)

Section Forms.
Import Js JsText.

Lemma or_undefined_or_default (o : option string) :
  or_undefined (or_default o "") = present o.
Proof.
  destruct o as [t |]; simpl; [| reflexivity].
  unfold or_undefined. destruct (String.eqb_spec t "") as [-> | H]; [reflexivity |].
  destruct (String.eqb_spec t ""); [contradiction | reflexivity].
Qed.

Lemma parse_field_number_text (v : OptInt) :
  RecipeForm.parse_field (RecipeForm.number_text v)
  = match v with
    | INum n => RecipeForm.NInt n
    | _ => RecipeForm.NUndefined
    end.
Proof.
  destruct v as [| | n]; try reflexivity.
  unfold RecipeForm.number_text, RecipeForm.parse_field. simpl or_default.
  destruct (String.eqb_spec (toString n) "") as [E | _];
    [apply toString_nonempty in E; contradiction |].
  destruct (String.eqb_spec (toString n) "") as [E | _];
    [apply toString_nonempty in E; contradiction |].
  rewrite parseInt_toString. reflexivity.
Qed.

Lemma pattern_ok_number_text (v : OptInt) :
  RecipeForm.pattern_ok (RecipeForm.number_text v)
  = match v with
    | INum n => 0 <=? n
    | _ => true
    end.
Proof.
  destruct v as [| | n]; try reflexivity.
  unfold RecipeForm.number_text, RecipeForm.pattern_ok. simpl or_default.
  destruct (String.eqb_spec (toString n) "") as [E | _];
    [apply toString_nonempty in E; contradiction |].
  destruct (String.eqb_spec (toString n) "") as [E | _];
    [apply toString_nonempty in E; contradiction |].
  simpl orb. apply matches_digits_toString.
Qed.

Lemma pattern_ok_field (text : string) :
  RecipeForm.pattern_ok text = true ->
  (text = "" /\ RecipeForm.parse_field text = RecipeForm.NUndefined)
  \/ (text <> ""
      /\ exists n, 0 <= n < 10 ^ Z.of_nat (String.length text)
                   /\ RecipeForm.parse_field text = RecipeForm.NInt n).
Proof.
  unfold RecipeForm.pattern_ok, RecipeForm.parse_field.
  destruct (String.eqb_spec text "") as [-> | Hne]; [left; split; reflexivity |].
  simpl orb. intros H. right. split; [exact Hne |].
  rewrite (parseInt_digits text H). exists (digits 10 0 text).
  split; [| reflexivity].
  unfold matches_digits in H. apply andb_true_iff in H. destruct H as [_ H].
  pose proof (digits_bound text 0 H ltac:(lia)).
  pose proof (digits_nonneg text 0 ltac:(lia)). lia.
Qed.

Lemma sendable_pattern_ok (v : OptInt) :
  RecipeForm.sendable v -> RecipeForm.pattern_ok (RecipeForm.number_text v) = true.
Proof.
  intros H. rewrite pattern_ok_number_text.
  destruct v as [| | n]; [reflexivity | reflexivity |].
  simpl in H. apply Z.leb_le. lia.
Qed.

Lemma populate_name (name : string) :
  (if String.eqb name "" then "" else name) = name.
Proof.
  destruct (String.eqb_spec name "") as [H | _]; [symmetry; exact H | reflexivity].
Qed.

(** X1.  Opening the edit dialog of a recipe and saving it unchanged sends
    the recipe's own values, provided the recipe has a name and each of its
    three numbers is absent or a safe integer that is not negative: the
    form passes its rules, and the body holds the name as it is, every text
    that is present and not empty, and every number as it is, zero
    included; [null] and empty texts are sent as [undefined].  What the
    form held before is ignored, and while the dialog is closed the effect
    leaves the form alone. *)
Theorem edit_recipe_round_trip (recipe : RecipeForm.RecipePublic)
    (form : RecipeForm.FormData) :
  RecipeForm.recipe_name recipe <> "" ->
  RecipeForm.sendable (RecipeForm.recipe_prep_time_minutes recipe) ->
  RecipeForm.sendable (RecipeForm.recipe_cook_time_minutes recipe) ->
  RecipeForm.sendable (RecipeForm.recipe_servings recipe) ->
  let number := fun v => match v with
                         | INum n => RecipeForm.NInt n
                         | _ => RecipeForm.NUndefined
                         end in
  RecipeForm.handleSubmit (RecipeForm.populate true recipe form)
  = Some {| RecipeForm.body_name := RecipeForm.recipe_name recipe;
            RecipeForm.body_description := present (RecipeForm.recipe_description recipe);
            RecipeForm.body_instructions := present (RecipeForm.recipe_instructions recipe);
            RecipeForm.body_prep_time_minutes :=
              number (RecipeForm.recipe_prep_time_minutes recipe);
            RecipeForm.body_cook_time_minutes :=
              number (RecipeForm.recipe_cook_time_minutes recipe);
            RecipeForm.body_servings := number (RecipeForm.recipe_servings recipe);
            RecipeForm.body_difficulty := present (RecipeForm.recipe_difficulty recipe);
            RecipeForm.body_cuisine := present (RecipeForm.recipe_cuisine recipe) |}
  /\ RecipeForm.populate false recipe form = form.
Proof.
  intros Hname Hp Hc Hs. cbv zeta. split; [| reflexivity].
  unfold RecipeForm.handleSubmit, RecipeForm.rules_hold, RecipeForm.onSubmit,
    RecipeForm.populate. simpl.
  rewrite !(sendable_pattern_ok _ Hp), !(sendable_pattern_ok _ Hc),
    !(sendable_pattern_ok _ Hs), populate_name.
  destruct (String.eqb_spec (RecipeForm.recipe_name recipe) "") as [E | _];
    [contradiction |].
  simpl. rewrite !or_undefined_or_default, !parse_field_number_text. reflexivity.
Qed.

Lemma edit_recipe_round_trip_witness :
  let recipe :=
    RecipeForm.mkRecipe "Pasta" (Some "") None (INum 0) INull (INum 4) (Some "Easy") None in
  let form := RecipeForm.mkForm "Soup" "old" "" "7" "x" "" "" "" in
  RecipeForm.recipe_name recipe <> ""
  /\ RecipeForm.sendable (INum 0) /\ RecipeForm.sendable INull
  /\ RecipeForm.sendable (INum 4)
  /\ RecipeForm.handleSubmit (RecipeForm.populate true recipe form)
     = Some (RecipeForm.mkBody "Pasta" None None (RecipeForm.NInt 0)
               RecipeForm.NUndefined (RecipeForm.NInt 4) (Some "Easy") None).
Proof.
  cbv zeta.
  assert (Hname : "Pasta" <> "") by discriminate.
  assert (H0 : RecipeForm.sendable (INum 0)) by (simpl; lia).
  assert (H4 : RecipeForm.sendable (INum 4)) by (simpl; lia).
  split; [exact Hname |]. split; [exact H0 |]. split; [exact I |].
  split; [exact H4 |].
  exact (proj1 (edit_recipe_round_trip
                  (RecipeForm.mkRecipe "Pasta" (Some "") None (INum 0) INull (INum 4)
                     (Some "Easy") None)
                  (RecipeForm.mkForm "Soup" "old" "" "7" "x" "" "" "")
                  Hname H0 I H4)).
Defined.

(** X2.  For a recipe whose three numbers are absent or safe integers,
    the form filled from it passes the registered rules exactly when the
    recipe has a name and none of the numbers is negative (a negative
    number is printed with a minus sign, which the digit pattern
    rejects). *)
Theorem edit_recipe_form_valid (recipe : RecipeForm.RecipePublic)
    (form : RecipeForm.FormData) :
  safe (RecipeForm.recipe_prep_time_minutes recipe) ->
  safe (RecipeForm.recipe_cook_time_minutes recipe) ->
  safe (RecipeForm.recipe_servings recipe) ->
  let nonneg := fun v => match v with INum n => 0 <= n | _ => True end in
  RecipeForm.rules_hold (RecipeForm.populate true recipe form) = true
  <-> RecipeForm.recipe_name recipe <> ""
      /\ nonneg (RecipeForm.recipe_prep_time_minutes recipe)
      /\ nonneg (RecipeForm.recipe_cook_time_minutes recipe)
      /\ nonneg (RecipeForm.recipe_servings recipe).
Proof.
  intros _ _ _.
  cbv zeta. unfold RecipeForm.rules_hold, RecipeForm.populate. simpl.
  rewrite !pattern_ok_number_text, !andb_true_iff, negb_true_iff.
  assert (N : forall v, (match v with INum n => 0 <=? n | _ => true end) = true
                        <-> match v with INum n => 0 <= n | _ => True end).
  { intros [| | n]; [tauto | tauto | apply Z.leb_le]. }
  rewrite !N, populate_name.
  destruct (String.eqb_spec (RecipeForm.recipe_name recipe) "") as [H | H]; split.
  - intros [[[H1 _] _] _]. discriminate H1.
  - intros [H1 _]. contradiction.
  - intros [[[_ H2] H3] H4]. auto.
  - intros (_ & H2 & H3 & H4). auto.
Qed.

Lemma edit_recipe_form_valid_witness :
  let recipe :=
    RecipeForm.mkRecipe "Pasta" None None (INum (-5)) INull (INum 4) None None in
  let form := RecipeForm.mkForm "" "" "" "" "" "" "" "" in
  safe (INum (-5)) /\ safe INull /\ safe (INum 4)
  /\ RecipeForm.rules_hold (RecipeForm.populate true recipe form) <> true.
Proof.
  cbv zeta.
  split; [reflexivity |]. split; [exact I |]. split; [reflexivity |].
  intros H.
  apply (edit_recipe_form_valid
           (RecipeForm.mkRecipe "Pasta" None None (INum (-5)) INull (INum 4) None None)
           (RecipeForm.mkForm "" "" "" "" "" "" "" "")
           eq_refl I eq_refl) in H.
  destruct H as (_ & H & _). simpl in H. lia.
Defined.

(** X3.  A recipe form that passes the registered rules and whose three
    numeric fields hold at most 15 characters is submitted, and each
    numeric field is sent as [undefined] when left empty and otherwise as
    the integer its digits denote, which is not negative and below
    [10^15]: never as NaN. *)
Theorem recipe_form_numbers (data : RecipeForm.FormData) :
  RecipeForm.rules_hold data = true ->
  (String.length (RecipeForm.prep_time_minutes data) <= 15)%nat ->
  (String.length (RecipeForm.cook_time_minutes data) <= 15)%nat ->
  (String.length (RecipeForm.servings data) <= 15)%nat ->
  let body := RecipeForm.onSubmit data in
  let sent := fun text field =>
    (text = "" /\ field = RecipeForm.NUndefined)
    \/ (text <> ""
        /\ exists n, 0 <= n < 10 ^ 15 /\ parseInt text = Some n
                     /\ field = RecipeForm.NInt n) in
  RecipeForm.handleSubmit data = Some body
  /\ RecipeForm.body_name body <> ""
  /\ sent (RecipeForm.prep_time_minutes data) (RecipeForm.body_prep_time_minutes body)
  /\ sent (RecipeForm.cook_time_minutes data) (RecipeForm.body_cook_time_minutes body)
  /\ sent (RecipeForm.servings data) (RecipeForm.body_servings body).
Proof.
  intros H Lp Lc Ls. cbv zeta. unfold RecipeForm.handleSubmit. rewrite H.
  unfold RecipeForm.rules_hold in H. rewrite !andb_true_iff, negb_true_iff in H.
  destruct H as [[[Hn Hp] Hc] Hs].
  assert (F : forall text, RecipeForm.pattern_ok text = true ->
                (String.length text <= 15)%nat ->
                (text = "" /\ RecipeForm.parse_field text = RecipeForm.NUndefined)
                \/ (text <> ""
                    /\ exists n, 0 <= n < 10 ^ 15 /\ parseInt text = Some n
                                 /\ RecipeForm.parse_field text = RecipeForm.NInt n)).
  { intros text Hok Hlen.
    destruct (pattern_ok_field text Hok) as [L | (Hne & n & Hb & E)]; [left; exact L |].
    right. split; [exact Hne |]. exists n.
    assert (P : 10 ^ Z.of_nat (String.length text) <= 10 ^ 15)
      by (apply Z.pow_le_mono_r; lia).
    split; [lia |]. split; [| exact E].
    unfold RecipeForm.parse_field in E.
    destruct (String.eqb_spec text "") as [E0 | _]; [contradiction |].
    destruct (parseInt text) as [k |]; [| discriminate E].
    injection E as ->. reflexivity. }
  split; [reflexivity |]. split.
  - simpl. intros E. rewrite E in Hn. discriminate Hn.
  - split; [| split]; apply F; assumption.
Qed.

Lemma recipe_form_numbers_witness :
  let data := RecipeForm.mkForm "Pasta" "" "" "30" "" "4" "Easy" "" in
  RecipeForm.rules_hold data = true
  /\ (String.length (RecipeForm.prep_time_minutes data) <= 15)%nat
  /\ (String.length (RecipeForm.cook_time_minutes data) <= 15)%nat
  /\ (String.length (RecipeForm.servings data) <= 15)%nat
  /\ RecipeForm.handleSubmit data
     = Some (RecipeForm.mkBody "Pasta" None None (RecipeForm.NInt 30)
               RecipeForm.NUndefined (RecipeForm.NInt 4) (Some "Easy") None).
Proof.
  cbv zeta. split; [reflexivity |].
  split; [simpl; lia |]. split; [simpl; lia |]. split; [simpl; lia |].
  destruct (recipe_form_numbers
              (RecipeForm.mkForm "Pasta" "" "" "30" "" "4" "Easy" "") eq_refl
              ltac:(simpl; lia) ltac:(simpl; lia) ltac:(simpl; lia))
    as [H _].
  rewrite H. reflexivity.
Defined.

(** X4.  Opening the edit dialog of an ingredient and saving it unchanged
    sends the ingredient's own name, its category when present and not
    empty, and its unit, with "grams" in place of an empty unit; what the
    form held before is ignored.  The form is submitted exactly when the
    name is not empty, and while the dialog is closed the effect leaves the
    form alone. *)
Theorem edit_ingredient_round_trip (ingredient : Ingredients.IngredientPublic)
    (form : EditIngredientForm.FormData) :
  let filled := EditIngredientForm.populate true ingredient form in
  let body := EditIngredientForm.onSubmit filled in
  EditIngredientForm.update_name body = Ingredients.name ingredient
  /\ EditIngredientForm.update_category body = present (Ingredients.category ingredient)
  /\ EditIngredientForm.update_unit body
     = (if String.eqb (Ingredients.unit ingredient) "" then "grams"
        else Ingredients.unit ingredient)
  /\ (EditIngredientForm.handleSubmit filled = Some body
      <-> Ingredients.name ingredient <> "")
  /\ (EditIngredientForm.handleSubmit filled = None
      <-> Ingredients.name ingredient = "")
  /\ EditIngredientForm.populate false ingredient form = form.
Proof.
  cbv zeta.
  unfold EditIngredientForm.handleSubmit, EditIngredientForm.rules_hold,
    EditIngredientForm.onSubmit, EditIngredientForm.populate. simpl.
  rewrite or_undefined_or_default.
  assert (E : (if (Ingredients.name ingredient =? "")%string
               then "" else Ingredients.name ingredient)
              = Ingredients.name ingredient).
  { destruct (String.eqb_spec (Ingredients.name ingredient) "") as [H | _];
      [symmetry; exact H | reflexivity]. }
  rewrite E.
  split; [reflexivity |]. split; [reflexivity |]. split; [reflexivity |].
  destruct (String.eqb_spec (Ingredients.name ingredient) "") as [H | H]; simpl.
  - split; [split; [discriminate | contradiction] |]. split; [tauto | reflexivity].
  - split; [tauto |]. split; [split; [discriminate | contradiction] | reflexivity].
Qed.

End Forms.

(** ** Texts shown by the recipe views *)

Section RecipeTexts.
Import Js JsText Jsx.









Lemma formatTime_detail_text (m : Z) :
  m <> 0 -> RecipeDetail.formatTime (INum m) = Some (Recipes.formatTime (INum m)).
Proof.
  intros Hm. unfold RecipeDetail.formatTime, Recipes.formatTime, truthy.
  apply Z.eqb_neq in Hm. rewrite Hm. simpl negb. cbv iota.
  destruct (m <? 60); [reflexivity |]. destruct (0 <? Z.rem m 60); reflexivity.
Qed.



(** X6.  The "Prep:" and "Cook:" lines of the recipe page and of the
    suggestion card: nothing is rendered for [null] and [undefined], the
    bare number 0 for a time of zero minutes, and otherwise the label
    followed by the text the recipes list shows for the same time; the
    [null] result of [formatTime] never reaches the screen. *)
Theorem time_lines (v : OptInt) (s : Suggestions.Suggestion) :
  (v = INull \/ v = IUndefined ->
   RecipeDetail.prep_time v = [] /\ RecipeDetail.cook_time v = [])
  /\ RecipeDetail.prep_time (INum 0) = [CInt 0]
  /\ RecipeDetail.cook_time (INum 0) = [CInt 0]
  /\ (truthy v = true ->
      RecipeDetail.prep_time v = [CText "Prep: "; CText (Recipes.formatTime v)]
      /\ RecipeDetail.cook_time v = [CText "Cook: "; CText (Recipes.formatTime v)])
  /\ ~ In CUndefined (RecipeDetail.prep_time v)
  /\ ~ In CUndefined (RecipeDetail.cook_time v)
  /\ Suggestions.prep_time (Suggestions.RecipeSuggestionCard s)
     = RecipeDetail.prep_time (Suggestions.prep_time_minutes (Suggestions.recipe s))
  /\ Suggestions.cook_time (Suggestions.RecipeSuggestionCard s)
     = RecipeDetail.cook_time (Suggestions.cook_time_minutes (Suggestions.recipe s)).
Proof.
  assert (T : truthy v = true ->
              RecipeDetail.prep_time v = [CText "Prep: "; CText (Recipes.formatTime v)]
              /\ RecipeDetail.cook_time v
                 = [CText "Cook: "; CText (Recipes.formatTime v)]).
  { destruct v as [| | m]; [discriminate | discriminate |].
    intros H. unfold truthy in H. apply negb_true_iff in H.
    unfold RecipeDetail.prep_time, RecipeDetail.cook_time, and_then. rewrite H.
    rewrite formatTime_detail_text by (apply Z.eqb_neq; exact H). split; reflexivity. }
  split; [intros [-> | ->]; split; reflexivity |].
  split; [reflexivity |]. split; [reflexivity |].
  split; [exact T |].
  assert (N : ~ In CUndefined (RecipeDetail.prep_time v)
              /\ ~ In CUndefined (RecipeDetail.cook_time v)).
  { destruct (truthy v) eqn:E.
    - destruct (T eq_refl) as [-> ->]. split; simpl; intros [H | [H | H]];
        try discriminate H; exact H.
    - destruct v as [| | m]; simpl in E.
      + split; simpl; tauto.
      + split; simpl; tauto.
      + apply negb_false_iff in E.
        unfold RecipeDetail.prep_time, RecipeDetail.cook_time, and_then. rewrite E.
        split; simpl; intros [H | H]; try discriminate H; exact H. }
  destruct N as [N1 N2]. split; [exact N1 |]. split; [exact N2 |].
  split; reflexivity.
Qed.

End RecipeTexts.

(** ** The difficulty badge and the instructions preview *)

Section Difficulty.
Import JsText Jsx.

Lemma lower_char_idem (c : ascii) : lower_char (lower_char c) = lower_char c.
Proof. destruct c as [[] [] [] [] [] [] [] []]; reflexivity. Qed.

Lemma toLowerCase_idem (s : string) : toLowerCase (toLowerCase s) = toLowerCase s.
Proof.
  induction s as [| c s IH]; [reflexivity |].
  simpl. rewrite lower_char_idem, IH. reflexivity.
Qed.

Lemma toLowerCase_empty (s : string) :
  String.eqb (toLowerCase s) "" = String.eqb s "".
Proof. destruct s; reflexivity. Qed.

(** X7.  The colour of the difficulty badge does not depend on the case of
    the letters: a text and its lower-case form get the same colour.  The
    colour is gray, green, orange or red, gray for a missing or empty
    difficulty; the three copies of [getDifficultyColor] agree; and the
    three values of the difficulty select of the edit form get green,
    orange and red, in this order. *)
Theorem difficulty_color (difficulty : option string) (d : string) :
  RecipesTable.getDifficultyColor (Some (toLowerCase d))
  = RecipesTable.getDifficultyColor (Some d)
  /\ RecipeDetailPage.getDifficultyColor difficulty
     = RecipesTable.getDifficultyColor difficulty
  /\ RecipeSuggestionCard.getDifficultyColor difficulty
     = RecipesTable.getDifficultyColor difficulty
  /\ In (RecipesTable.getDifficultyColor difficulty) ["gray"; "green"; "orange"; "red"]
  /\ RecipesTable.getDifficultyColor None = "gray"
  /\ RecipesTable.getDifficultyColor (Some "") = "gray"
  /\ map (fun o => RecipesTable.getDifficultyColor (Some o)) RecipeForm.difficultyOptions
     = ["green"; "orange"; "red"].
Proof.
  split.
  { unfold RecipesTable.getDifficultyColor.
    rewrite toLowerCase_empty, toLowerCase_idem. reflexivity. }
  split; [reflexivity |]. split; [reflexivity |]. split.
  { unfold RecipesTable.getDifficultyColor.
    destruct difficulty as [t |]; [| simpl; auto].
    destruct (String.eqb t ""); [simpl; auto |].
    destruct (String.eqb (toLowerCase t) "easy"); [simpl; auto |].
    destruct (String.eqb (toLowerCase t) "medium"); [simpl; auto |].
    destruct (String.eqb (toLowerCase t) "hard"); simpl; auto. }
  repeat split.
Qed.

Lemma length_substring0 (n : nat) (s : Utf16) :
  length (substring0 n s) = Nat.min n (length s).
Proof. unfold substring0. apply length_take. Qed.

Lemma substring0_append (a b : Utf16) :
  substring0 (length a) (a ++ b)%list = a.
Proof. unfold substring0. apply take_app_length. Qed.

(** X8.  The instructions block of a suggestion card is left out when the
    recipe has no instructions or empty ones.  Otherwise it shows the
    instructions unchanged when they have at most 200 UTF-16 code units,
    and their first 200 code units followed by "..." when they are longer:
    never more than 203 code units. *)
Theorem instructions_preview (instructions : option Utf16) :
  match RecipeSuggestionCard.instructions_text instructions with
  | None => instructions = None \/ instructions = Some []
  | Some t =>
      exists s, instructions = Some s /\ s <> []
        /\ (length t <= 203)%nat
        /\ ((length s <= 200)%nat -> t = s)
        /\ ((200 < length s)%nat ->
            t = (substring0 200 s ++ dots)%list
            /\ length t = 203%nat
            /\ substring0 200 t = substring0 200 s)
  end.
Proof.
  unfold RecipeSuggestionCard.instructions_text.
  destruct instructions as [s |]; [| left; reflexivity].
  destruct s as [| c s]; [right; reflexivity |].
  change (length (c :: s) =? 0)%nat with false. cbv iota.
  exists (c :: s). split; [reflexivity |]. split; [discriminate |].
  destruct (Nat.ltb_spec 200 (length (c :: s))) as [L | L].
  - assert (Len : length (substring0 200 (c :: s)) = 200%nat)
      by (rewrite length_substring0; lia).
    split; [rewrite length_app, Len; simpl; lia |].
    split; [lia |]. intros _. split; [reflexivity |].
    split; [rewrite length_app, Len; reflexivity |].
    rewrite <- Len at 1. apply substring0_append.
  - split; [lia |]. split; [reflexivity | lia].
Qed.

End Difficulty.

(** ** Navigation followed by validation *)

Section NavigationRequests.
Import Js Client.

(** X9.  After a search term is submitted on the ingredients or recipes
    page, or the expiring-soon switch is toggled on the pantry page, the
    list query asks for the first page ([skip = 0], [limit = 10]) with the
    new term (an empty term as [undefined]), respectively the new switch
    value, whatever the URL held before. *)
Theorem filter_requests_first_page (t : string) (checked : bool)
    (prev : gmap string Val) :
  queryFn (Ingredients.IngredientsTable_query (Ingredients.handleSearch t prev))
  = readIngredients 0 10 (or_undefined t)
  /\ queryFn (Recipes.RecipesTable_query (Recipes.handleSearch t prev))
     = readRecipes 0 10 (or_undefined t)
  /\ queryFn (Pantry.PantryTable_query (Pantry.toggleExpiringSoon checked prev))
     = readUserIngredients 0 10 checked 7.
Proof.
  unfold Ingredients.IngredientsTable_query, Recipes.RecipesTable_query,
    Pantry.PantryTable_query, Ingredients.validateSearch, Recipes.validateSearch,
    Pantry.validateSearch, Ingredients.ingredientsSearchSchema,
    Recipes.recipesSearchSchema, Pantry.pantrySearchSchema,
    Ingredients.handleSearch, Recipes.handleSearch, Pantry.toggleExpiringSoon.
  rewrite !lookup_insert_eq.
  rewrite !(lookup_insert_ne _ "page") by discriminate.
  rewrite !lookup_insert_eq. repeat split.
Qed.

(** X10.  Choosing a page keeps the filters: after [setPage p] the
    validated search term (the expiring-soon flag on the pantry page) is
    the one of the previous URL, and the validated page is [p], or 1 when
    [p] is NaN. *)
Theorem set_page_keeps_filters (p : float) (prev : gmap string Val) :
  let page := if PrimFloat.is_nan p then 1%float else p in
  Ingredients.validateSearch (Ingredients.setPage p prev)
  = Ingredients.mkSearch page (Ingredients.search (Ingredients.validateSearch prev))
  /\ Recipes.validateSearch (Recipes.setPage p prev)
     = Recipes.mkSearch page (Recipes.search (Recipes.validateSearch prev))
  /\ Pantry.validateSearch (Pantry.setPage p prev)
     = Pantry.mkSearch page (Pantry.expiring_soon (Pantry.validateSearch prev)).
Proof.
  cbv zeta.
  unfold Ingredients.validateSearch, Recipes.validateSearch, Pantry.validateSearch,
    Ingredients.ingredientsSearchSchema, Recipes.recipesSearchSchema,
    Pantry.pantrySearchSchema, Ingredients.setPage, Recipes.setPage, Pantry.setPage.
  rewrite !lookup_insert_eq.
  rewrite !(lookup_insert_ne _ "page") by discriminate.
  simpl. destruct (PrimFloat.is_nan p); repeat split.
Qed.

(** X11.  A URL whose [page] parameter is missing or is not a number makes
    each of the three list queries ask for the first page. *)
Theorem missing_page_requests_first_page (url : gmap string Val) :
  (forall p, url !! "page" = Some (VNum p) -> PrimFloat.is_nan p = true) ->
  (exists search, queryFn (Ingredients.IngredientsTable_query url)
                  = readIngredients 0 10 search)
  /\ (exists search, queryFn (Recipes.RecipesTable_query url)
                     = readRecipes 0 10 search)
  /\ (exists flag, queryFn (Pantry.PantryTable_query url)
                   = readUserIngredients 0 10 flag 7).
Proof.
  intros H.
  assert (P : Zod.catch 1%float (Zod.number (url !! "page")) = 1%float).
  { destruct (url !! "page") as [[| | x | |] |]; try reflexivity.
    simpl. rewrite (H x eq_refl). reflexivity. }
  unfold Ingredients.IngredientsTable_query, Recipes.RecipesTable_query,
    Pantry.PantryTable_query, Ingredients.validateSearch, Recipes.validateSearch,
    Pantry.validateSearch, Ingredients.ingredientsSearchSchema,
    Recipes.recipesSearchSchema, Pantry.pantrySearchSchema,
    Ingredients.getIngredientsQueryOptions, Recipes.getRecipesQueryOptions,
    Pantry.getUserIngredientsQueryOptions.
  simpl. rewrite P. repeat split; eexists; reflexivity.
Qed.

Lemma missing_page_requests_first_page_witness :
  (forall p, (∅ : gmap string Val) !! "page" = Some (VNum p) -> PrimFloat.is_nan p = true)
  /\ queryFn (Ingredients.IngredientsTable_query ∅) = readIngredients 0 10 None.
Proof.
  assert (H : forall p, (∅ : gmap string Val) !! "page" = Some (VNum p)
                        -> PrimFloat.is_nan p = true)
    by (intros p E; rewrite lookup_empty in E; discriminate E).
  split; [exact H |].
  destruct (missing_page_requests_first_page ∅ H) as [[search E] _].
  rewrite E. vm_compute in E. injection E as <-. reflexivity.
Defined.

(** X12.  Pressing "Update Suggestions" without moving the sliders leaves
    the validated search as it is: the search object built by
    [updateFilters] from the validated values validates to the same
    values.  That object holds the two slider values and nothing else, so
    any other parameter of the previous URL is dropped. *)
Theorem update_filters_round_trip (url : gmap string Val) (a b : float) :
  let s := Suggestions.validateSearch url in
  Suggestions.validateSearch
    (SuggestionsFilters.updateFilters (Suggestions.min_match_score s) (Suggestions.limit s))
  = s
  /\ SuggestionsFilters.updateFilters a b !! "min_match_score" = Some (VNum a)
  /\ SuggestionsFilters.updateFilters a b !! "limit" = Some (VNum b)
  /\ (forall k, k <> "min_match_score" -> k <> "limit" ->
                SuggestionsFilters.updateFilters a b !! k = None).
Proof.
  cbv zeta.
  assert (L : forall x y, SuggestionsFilters.updateFilters x y !! "min_match_score"
                          = Some (VNum x)
                          /\ SuggestionsFilters.updateFilters x y !! "limit"
                             = Some (VNum y)).
  { intros x y. unfold SuggestionsFilters.updateFilters. split.
    - rewrite lookup_insert_ne by discriminate. apply lookup_insert_eq.
    - apply lookup_insert_eq. }
  split; [| split; [apply L | split; [apply L |]]].
  - unfold Suggestions.validateSearch, Suggestions.suggestionsSearchSchema.
    destruct (bounded_field 0 1 0.3 (url !! "min_match_score"))
      as ([Hm1 Hm2] & _ & _); try reflexivity.
    destruct (bounded_field 1 50 10 (url !! "limit"))
      as ([Hl1 Hl2] & _ & _); try reflexivity.
    cbv zeta in Hm1, Hm2, Hl1, Hl2.
    set (m := Zod.catch 0.3%float
                (Zod.max 1 (Zod.min 0 (Zod.number (url !! "min_match_score"))))) in *.
    set (l := Zod.catch 10%float
                (Zod.max 50 (Zod.min 1 (Zod.number (url !! "limit"))))) in *.
    simpl Suggestions.min_match_score. simpl Suggestions.limit.
    destruct (L m l) as [-> ->].
    destruct (bounded_field 0 1 0.3 (Some (VNum m))) as (_ & Em & _); try reflexivity.
    destruct (bounded_field 1 50 10 (Some (VNum l))) as (_ & El & _); try reflexivity.
    cbv zeta in Em, El.
    rewrite (Em m eq_refl Hm1 Hm2), (El l eq_refl Hl1 Hl2). reflexivity.
  - intros k H1 H2. unfold SuggestionsFilters.updateFilters.
    rewrite !lookup_insert_ne by congruence. apply lookup_empty.
Qed.

End NavigationRequests.

(** ** What a settling mutation does to the cache and to the form *)

Section CacheFrame.
Import ReactQuery Mutations.

Lemma invalidate_all_id (ks : list (list string)) (q : Query) :
  existsb (partialMatchKey (queryKey q)) ks = false -> invalidate_all ks q = q.
Proof.
  revert q. induction ks as [| k ks IH]; intros q H; [reflexivity |].
  simpl in H. apply orb_false_iff in H. destruct H as [H1 H2].
  simpl. unfold invalidate at 1. rewrite H1. apply IH, H2.
Qed.

Lemma invalidate_all_inv (ks : list (list string)) (q : Query) :
  isInvalidated (invalidate_all ks q) = true ->
  isInvalidated q = true \/ existsb (partialMatchKey (queryKey q)) ks = true.
Proof.
  revert q. induction ks as [| k ks IH]; intros q H; [left; exact H |].
  simpl in H. apply IH in H. rewrite invalidate_queryKey in H. simpl.
  destruct (partialMatchKey (queryKey q) k) eqn:E; [right; reflexivity |].
  unfold invalidate in H. rewrite E in H. exact H.
Qed.

Lemma settle_lookup (m : Mutation) (o : Outcome) (a : App) (i : nat) (q : Query) :
  cache a !! i = Some q ->
  cache (settle (options m) o a) !! i = Some (invalidate_all (keys m) q).
Proof.
  intros H. destruct (settle_cache m o a) as [-> _].
  rewrite list_lookup_fmap, H. reflexivity.
Qed.

(** X13.  A settling mutation changes nothing in the cache but stale
    flags: every cached query keeps its place and its key; a query that the
    keys of the mutation do not match is left exactly as it was; a stale
    query stays stale; and a query is stale afterwards only if it was
    before or is matched. *)
Theorem settle_cache_frame (m : Mutation) (o : Outcome) (a : App) (i : nat) (q : Query) :
  cache a !! i = Some q ->
  exists q',
    cache (settle (options m) o a) !! i = Some q'
    /\ queryKey q' = queryKey q
    /\ (matches m q = false -> q' = q)
    /\ (isInvalidated q = true -> isInvalidated q' = true)
    /\ (isInvalidated q' = true -> isInvalidated q = true \/ matches m q = true)
    /\ length (cache (settle (options m) o a)) = length (cache a).
Proof.
  intros H. exists (invalidate_all (keys m) q).
  split; [apply settle_lookup, H |]. split; [apply invalidate_all_queryKey |].
  split; [apply invalidate_all_id |]. split; [apply invalidate_all_stays |].
  split; [apply invalidate_all_inv |].
  destruct (settle_cache m o a) as [-> _]. apply length_map.
Qed.

Lemma settle_cache_frame_witness :
  cache Samples.dialog_open !! 0%nat
  = Some (mkQuery [KStr "recipe-ingredients"; KStr "r1"] false)
  /\ cache (settle (options CreateRecipe) Fulfilled Samples.dialog_open) !! 0%nat
     = Some (mkQuery [KStr "recipe-ingredients"; KStr "r1"] false).
Proof.
  split; [reflexivity |].
  destruct (settle_cache_frame CreateRecipe Fulfilled Samples.dialog_open 0%nat
              (mkQuery [KStr "recipe-ingredients"; KStr "r1"] false) eq_refl)
    as (q' & H & _ & E & _).
  rewrite H, (E eq_refl). reflexivity.
Defined.

(** X14.  Adding an ingredient to a recipe, or removing one, marks the
    cached ingredient list of that recipe stale and leaves the cached
    ingredient lists of all other recipes as they are. *)
Theorem recipe_ingredient_mutations_scoped (recipeId other : string) (stale : bool)
    (o : Outcome) (a : App) (i : nat) :
  cache a !! i = Some (mkQuery (RecipeIngredientsTable.queryKey other) stale) ->
  let after := mkQuery (RecipeIngredientsTable.queryKey other)
                 (if String.eqb recipeId other then true else stale) in
  cache (settle (options (AddRecipeIngredient recipeId)) o a) !! i = Some after
  /\ cache (settle (options (DeleteRecipeIngredient recipeId)) o a) !! i = Some after.
Proof.
  intros H. cbv zeta.
  rewrite (settle_lookup (AddRecipeIngredient recipeId) o a i _ H),
    (settle_lookup (DeleteRecipeIngredient recipeId) o a i _ H).
  unfold invalidate_all, keys, fold_left, invalidate, RecipeIngredientsTable.queryKey.
  simpl. destruct (String.eqb recipeId other); split; reflexivity.
Qed.

Lemma recipe_ingredient_mutations_scoped_witness :
  cache Samples.dialog_open !! 0%nat
  = Some (mkQuery (RecipeIngredientsTable.queryKey "r1") false)
  /\ cache (settle (options (DeleteRecipeIngredient "r2")) Fulfilled Samples.dialog_open)
       !! 0%nat
     = Some (mkQuery (RecipeIngredientsTable.queryKey "r1") false)
  /\ cache (settle (options (DeleteRecipeIngredient "r1")) Fulfilled Samples.dialog_open)
       !! 0%nat
     = Some (mkQuery (RecipeIngredientsTable.queryKey "r1") true).
Proof.
  split; [reflexivity |]. split.
  - destruct (recipe_ingredient_mutations_scoped "r2" "r1" false Fulfilled
                Samples.dialog_open 0%nat eq_refl) as [_ H].
    exact H.
  - destruct (recipe_ingredient_mutations_scoped "r1" "r1" false Fulfilled
                Samples.dialog_open 0%nat eq_refl) as [_ H].
    exact H.
Defined.

(** X15.  Which mutation refreshes which list: a cached page of the
    ingredients list, whatever its page and search parameters, is marked
    stale by creating or updating an ingredient and left as it is by every
    other mutation; likewise a page of the recipes list by creating or
    updating a recipe, and a page of the pantry list by adding a pantry
    ingredient. *)
Theorem list_queries_refreshed (m : Mutation) (o : Outcome) (a : App) (i : nat)
    (stale : bool) :
  (forall s,
     cache a !! i
     = Some (mkQuery (Client.queryKey (Ingredients.getIngredientsQueryOptions s)) stale) ->
     cache (settle (options m) o a) !! i
     = Some (mkQuery (Client.queryKey (Ingredients.getIngredientsQueryOptions s))
               match m with
               | CreateIngredient | UpdateIngredient => true
               | _ => stale
               end))
  /\ (forall s,
        cache a !! i
        = Some (mkQuery (Client.queryKey (Recipes.getRecipesQueryOptions s)) stale) ->
        cache (settle (options m) o a) !! i
        = Some (mkQuery (Client.queryKey (Recipes.getRecipesQueryOptions s))
                  match m with
                  | CreateRecipe | UpdateRecipe _ => true
                  | _ => stale
                  end))
  /\ (forall s,
        cache a !! i
        = Some (mkQuery (Client.queryKey (Pantry.getUserIngredientsQueryOptions s)) stale) ->
        cache (settle (options m) o a) !! i
        = Some (mkQuery (Client.queryKey (Pantry.getUserIngredientsQueryOptions s))
                  match m with
                  | AddPantryIngredient => true
                  | _ => stale
                  end)).
Proof.
  split; [| split]; intros s H; rewrite (settle_lookup m o a i _ H);
    destruct m; reflexivity.
Qed.

(** X16.  The form is cleared only by a successful creation: the four
    "add" mutations reset their form once on success, the two "edit"
    mutations and the removal never do, and after an error no form is
    reset, so what the user typed is kept. *)
Theorem form_reset (m : Mutation) (a : App) (err : ApiError) :
  resets (settle (options m) (Rejected err) a) = resets a
  /\ resets (settle (options m) Fulfilled a)
     = match m with
       | CreateIngredient | CreateRecipe | AddPantryIngredient | AddRecipeIngredient _ =>
           S (resets a)
       | UpdateIngredient | UpdateRecipe _ | DeleteRecipeIngredient _ => resets a
       end.
Proof. destruct m; split; reflexivity. Qed.

End CacheFrame.

(** ** The expiration window, and the ingredient list of a recipe *)

Section Window.
Import Js Jsx ReactQuery.

(** The day difference lies in [0, 7] exactly when the difference in
    milliseconds lies in (-86400000, 604800000]. *)
Lemma ceil_div_window (x : Z) :
  (ceil_div x 86400000 <=? 7) && (0 <=? ceil_div x 86400000)
  = (-86400000 <? x) && (x <=? 604800000).
Proof.
  unfold ceil_div.
  pose proof (Z.div_mod (- x) 86400000 ltac:(lia)) as D.
  pose proof (Z.mod_pos_bound (- x) 86400000 ltac:(lia)) as B.
  set (q := - x / 86400000) in *. set (r := (- x) mod 86400000) in *.
  destruct (Z.leb_spec (- q) 7), (Z.leb_spec 0 (- q)),
    (Z.ltb_spec (-86400000) x), (Z.leb_spec x 604800000); simpl; try reflexivity; lia.
Qed.

(** X17.  With the clock standing still at [t] while a row is rendered,
    and an expiration date that parses to the instant [e]: the row shows
    "Expired" iff [e < t], and "Soon" iff [t <= e <= t + 7 days]; a date
    equal to [t] counts as soon, and one millisecond beyond seven days
    gets no badge. *)
Theorem expiration_window (Date_parse : string -> option Z) (clock : nat -> Z)
    (u : Pantry.UserIngredientPublic) (d : string) (e t : Z) (n : nat) :
  Pantry.expiration_date u = Some d -> d <> "" -> Date_parse d = Some e ->
  (forall i, clock i = t) ->
  fst (Pantry.expiration Date_parse clock u n)
  = Pantry.Expiration d (e <? t) ((t <=? e) && (e <=? t + 604800000)).
Proof.
  intros Hd Hne He Hc.
  rewrite (expiration_cell_eval Date_parse clock u d n Hd Hne), He, !Hc.
  f_equal. rewrite ceil_div_window.
  destruct (Z.ltb_spec e t), (Z.leb_spec t e), (Z.ltb_spec (-86400000) (e - t)),
    (Z.leb_spec (e - t) 604800000), (Z.leb_spec e (t + 604800000));
    simpl; try reflexivity; lia.
Qed.

Lemma expiration_window_witness :
  Pantry.expiration_date Samples.milk = Some "2025-01-10"
  /\ Samples.parse "2025-01-10" = Some 1736467200000
  /\ fst (Pantry.expiration Samples.parse (fun _ => 1736467200000 - 604800000)
            Samples.milk 0%nat)
     = Pantry.Expiration "2025-01-10" false true
  /\ fst (Pantry.expiration Samples.parse (fun _ => 1736467200000 - 604800001)
            Samples.milk 0%nat)
     = Pantry.Expiration "2025-01-10" false false.
Proof.
  split; [reflexivity |]. split; [reflexivity |]. split.
  - rewrite (expiration_window Samples.parse (fun _ => 1736467200000 - 604800000)
               Samples.milk "2025-01-10" 1736467200000
               (1736467200000 - 604800000) 0%nat eq_refl ltac:(discriminate) eq_refl
               (fun _ => eq_refl)).
    reflexivity.
  - rewrite (expiration_window Samples.parse (fun _ => 1736467200000 - 604800001)
               Samples.milk "2025-01-10" 1736467200000
               (1736467200000 - 604800001) 0%nat eq_refl ltac:(discriminate) eq_refl
               (fun _ => eq_refl)).
    reflexivity.
Defined.

(** X18.  The ingredient list of a recipe shows every item of the
    response, in the order received and one row per item keyed by its id:
    it is not cut to ten rows as the paginated tables are.  The empty
    state is shown exactly when the response is empty, and a removal is
    started only after the user has confirmed it. *)
Theorem recipe_ingredients_rows
    (d : Client.Page RecipeIngredientsTable.RecipeIngredientPublic)
    (placeholder : bool) (ingredientId : string) :
  let view := RecipeIngredientsTable.RecipeIngredients (mkResult (Some d) false placeholder) in
  RecipeIngredientsTable.rows_of view
  = map RecipeIngredientsTable.row (Client.page_data d)
  /\ map RecipeIngredientsTable.row_key (RecipeIngredientsTable.rows_of view)
     = map RecipeIngredientsTable.id (Client.page_data d)
  /\ length (RecipeIngredientsTable.rows_of view) = length (Client.page_data d)
  /\ (view = RecipeIngredientsTable.EmptyState <-> Client.page_data d = [])
  /\ RecipeIngredientsTable.handleDelete false ingredientId = None
  /\ RecipeIngredientsTable.handleDelete true ingredientId = Some ingredientId.
Proof.
  cbv zeta. unfold RecipeIngredientsTable.RecipeIngredients.
  simpl data. simpl isLoading. cbv iota.
  destruct (Client.page_data d) as [| x l] eqn:E.
  - simpl. repeat split; try reflexivity; try discriminate.
  - change (length (x :: l) =? 0)%nat with false. cbv iota.
    unfold RecipeIngredientsTable.rows_of.
    split; [reflexivity |]. split; [rewrite map_map; reflexivity |].
    split; [apply length_map |].
    split; [split; discriminate |]. split; reflexivity.
Qed.

End Window.
